(** * Nextcloud operator charm: a shallow embedding of [src/charm.py]

    The charm is a thin event handler: it validates the configuration,
    merges the data of the [database] relation into a stored dictionary and
    publishes a pod specification.  The embedding follows the Python text:

    - the charm object [self] is a record holding what the handlers read
      (configuration, leadership) and what they change (the stored
      [database] dictionary, and the chronological list of the calls made to
      the host: status assignments, [set_spec], log records); the name of
      the application is a parameter of the handlers;
    - dictionaries are [gmap]s, so [d.get(k)] is [d !! k];
    - a Python exception is a [Raise] result; a handler that raises keeps
      the changes it made before raising. *)

From Stdlib Require Import ZArith String Ascii List Bool.
From stdpp Require Import base option list gmap strings fin_maps.

Local Open Scope string_scope.
Local Open Scope Z_scope.

(** ** Python values and exceptions *)

(** Values a configuration option can hold. *)
Inductive value : Type :=
| VStr (s : string)
| VInt (z : Z)
| VBool (b : bool).

(** Python truthiness, as used by [not config[setting]]. *)
Definition truthy (v : value) : bool :=
  match v with
  | VStr s => negb (String.eqb s "")
  | VInt z => negb (z =? 0)
  | VBool b => b
  end.

(** Truthiness of a string, as used by [not d.get('host')] ([None] when the
    key is absent). *)
Definition truthy_opt (o : option string) : bool :=
  match o with
  | Some s => negb (String.eqb s "")
  | None => false
  end.

Inductive exn : Type :=
| KeyError (key : string)
| IndexError.

Inductive result (A : Type) : Type :=
| Ok (a : A)
| Raise (e : exn).
Arguments Ok {A} a.
Arguments Raise {A} e.

(** ** Strings: [sorted], [', '.join] and [str.lower] *)

Fixpoint insert_sorted (s : string) (l : list string) : list string :=
  match l with
  | [] => [s]
  | x :: rest => if String.leb s x then s :: l else x :: insert_sorted s rest
  end.

(** [sorted(l)] on strings: the order is the code-point order, which on
    UTF-8 bytes is the byte order of [String.leb].  Equal strings are
    indistinguishable, so any sorting algorithm returns the same list. *)
Fixpoint sorted (l : list string) : list string :=
  match l with
  | [] => []
  | x :: rest => insert_sorted x (sorted rest)
  end.

Definition lower_ascii (c : ascii) : ascii :=
  let n := nat_of_ascii c in
  if (Nat.leb 65 n && Nat.leb n 90)%bool then ascii_of_nat (n + 32) else c.

(** [s.lower()].  Only the letters A-Z are folded.  The charm compares the
    result with ["mysql"], ["postgresql"] and ["postgres"] only, and no
    character outside ASCII lower-cases to a letter of these words, so the
    comparisons agree with Python's on every string. *)
Fixpoint lower (s : string) : string :=
  match s with
  | EmptyString => EmptyString
  | String c rest => String (lower_ascii c) (lower rest)
  end.

(** ** Module constants *)

Definition REQUIRED_SETTINGS : list string := ["image"].

(** A Python set; it is only iterated, and the iteration order shows in
    nothing but the order of the names in one log record. *)
Definition REQUIRED_DATABASE_FIELDS : list string :=
  ["type"; "host"; "name"; "user"; "password"].

Definition VALID_DATABASE_TYPES : list string := ["mysql"; "postgres"].

(** ** Statuses, pod specification, host calls *)

Inductive status : Type :=
| ActiveStatus
| MaintenanceStatus (message : string)
| WaitingStatus (message : string)
| BlockedStatus (message : string).

Record image_details := { imagePath : value }.

Record port_entry := {
  port_name : string;
  containerPort : value;
  protocol : string
}.

Record http_get := { probe_path : string; probe_port : string }.

Record readiness_probe := {
  httpGet : http_get;
  initialDelaySeconds : Z;
  timeoutSeconds : Z
}.

Record kubernetes_section := { readinessProbe : readiness_probe }.

(** [envConfig] maps a variable to the outcome of [store.database.get(..)],
    which is [None] for a field the store does not hold. *)
Record container := {
  name : string;
  imageDetails : image_details;
  ports : list port_entry;
  volumeConfig : list (gmap string string);
  envConfig : gmap string (option string);
  kubernetes : kubernetes_section
}.

Record pod_spec := {
  version : Z;
  containers : list container
}.

Inductive level : Type := DEBUG | WARNING | ERROR.

(** What a handler does to the outside world, in the order it does it. *)
Inductive effect : Type :=
| SetStatus (s : status)
| SetSpec (p : pod_spec)
| Log (lvl : level) (format : string) (args : list string).

(** ** The charm object *)

Record charm := {
  config : gmap string value;
  is_leader : bool;
  database : gmap string string;
  effects : list effect
}.

Definition set_database (db : gmap string string) (self : charm) : charm :=
  {| config := config self; is_leader := is_leader self; database := db;
     effects := effects self |}.

Definition emit (e : effect) (self : charm) : charm :=
  {| config := config self; is_leader := is_leader self;
     database := database self; effects := effects self ++ [e] |}.

(** [__init__] on first start: the debug record, and
    [store.set_default(database={})]. *)
Definition new_charm (cfg : gmap string value) (leader : bool) : charm :=
  {| config := cfg; is_leader := leader; database := ∅;
     effects := [Log DEBUG "Initializing the NextCloud charm." []] |}.

(** The status and the pod specification the host last received. *)
Fixpoint last_status (es : list effect) : option status :=
  match es with
  | [] => None
  | e :: rest =>
      match last_status rest, e with
      | Some s, _ => Some s
      | None, SetStatus s => Some s
      | None, _ => None
      end
  end.

Fixpoint last_spec (es : list effect) : option pod_spec :=
  match es with
  | [] => None
  | e :: rest =>
      match last_spec rest, e with
      | Some p, _ => Some p
      | None, SetSpec p => Some p
      | None, _ => None
      end
  end.

Definition is_log (e : effect) : bool :=
  match e with Log _ _ _ => true | _ => false end.

(** ** ConfigValidator *)

(** The comprehension [[s for s in settings if not config[s]]]: settings are
    visited in order and [config[s]] raises [KeyError] on an absent key. *)
Fixpoint falsy_settings (cfg : gmap string value) (settings : list string)
  : result (list string) :=
  match settings with
  | [] => Ok []
  | s :: rest =>
      match cfg !! s with
      | None => Raise (KeyError s)
      | Some v =>
          match falsy_settings cfg rest with
          | Ok m => Ok (if truthy v then m else s :: m)
          | Raise e => Raise e
          end
      end
  end.

Definition _missing_charm_settings (self : charm) : result (list string) :=
  match falsy_settings (config self) REQUIRED_SETTINGS with
  | Ok missing => Ok (sorted missing)
  | Raise e => Raise e
  end.

Definition _check_for_config_problems (self : charm) : result string :=
  match _missing_charm_settings self with
  | Ok missing =>
      match missing with
      | [] => Ok ""
      | _ :: _ => Ok ("required setting(s) empty: " ++ String.concat ", " missing)
      end
  | Raise e => Raise e
  end.

(** ** Handlers: state passing with exceptions *)

(** A method call on [self]: it returns or raises, and leaves the charm
    object as it is at that point. *)
Definition M (A : Type) : Type := charm → result A * charm.

Definition ret {A} (a : A) : M A := λ self, (Ok a, self).

Definition bind {A B} (m : M A) (k : A → M B) : M B :=
  λ self,
    match m self with
    | (Ok a, self') => k a self'
    | (Raise e, self') => (Raise e, self')
    end.

(** A method that only reads [self]. *)
Definition call {A} (f : charm → result A) : M A := λ self, (f self, self).

(** An assignment to a field of [self], or a call to the host. *)
Definition exec (f : charm → charm) : M unit := λ self, (Ok tt, f self).

Definition read {A} (f : charm → A) : M A := λ self, (Ok (f self), self).

Declare Scope charm_scope.
Delimit Scope charm_scope with charm.
Notation "'let*' x ':=' m 'in' k" := (bind m (λ x, k))
  (at level 10, x name, m at level 100, k at level 200) : charm_scope.
Notation "m ';;' k" := (bind m (λ _, k))
  (at level 100, k at level 200, right associativity) : charm_scope.

Definition log (lvl : level) (format : string) (args : list string) : M unit :=
  exec (emit (Log lvl format args)).

Definition set_status (s : status) : M unit := exec (emit (SetStatus s)).

(** [self.model.pod.set_spec(pod_spec)] *)
Definition set_spec (p : pod_spec) : M unit := exec (emit (SetSpec p)).

(** ** EnvMapper *)

Definition mysql_env (db : gmap string string) : gmap string (option string) :=
  <["MYSQL_DATABASE" := db !! "name"]>
  (<["MYSQL_USER" := db !! "user"]>
  (<["MYSQL_PASSWORD" := db !! "password"]>
  (<["MYSQL_HOST" := db !! "host"]> ∅))).

Definition postgres_env (db : gmap string string) : gmap string (option string) :=
  <["POSTGRES_DB" := db !! "name"]>
  (<["POSTGRES_USER" := db !! "user"]>
  (<["POSTGRES_PASSWORD" := db !! "password"]>
  (<["POSTGRES_HOST" := db !! "host"]> ∅))).

(** The two [if]s of the source in sequence (they are not an [if]/[elif]). *)
Definition env_of_database (db : gmap string string)
  : gmap string (option string) :=
  let db_type := lower (default "" (db !! "type")) in
  let env := ∅ in
  let env := if String.eqb db_type "mysql" then mysql_env db else env in
  let env :=
    if (String.eqb db_type "postgresql" || String.eqb db_type "postgres")%bool
    then postgres_env db else env in
  env.

Definition set_envConfig (env : gmap string (option string)) (c : container)
  : container :=
  {| name := name c; imageDetails := imageDetails c; ports := ports c;
     volumeConfig := volumeConfig c; envConfig := env;
     kubernetes := kubernetes c |}.

(** [pod_spec['containers'][0]['envConfig'] = env] changes the dictionary
    it is given and returns that same dictionary; here the changed
    specification is the result.  Indexing an empty list raises. *)
Definition _update_pod_env_config (self : charm) (spec : pod_spec)
  : result pod_spec :=
  let env := env_of_database (database self) in
  match containers spec with
  | [] => Raise IndexError
  | c :: rest =>
      Ok {| version := version spec;
            containers := set_envConfig env c :: rest |}
  end.

(** ** PodSpecBuilder *)

Definition the_readiness_probe : readiness_probe :=
  {| httpGet := {| probe_path := "/status.php"; probe_port := "http" |};
     initialDelaySeconds := 10;
     timeoutSeconds := 30 |}.

Section Charm.

(** [self.app.name], the name under which the application is deployed; it
    is fixed for the life of the charm. *)
Variable app_name : string.

Definition _build_pod_spec (self : charm) : result pod_spec :=
  let config := config self in
  match config !! "image" with
  | None => Raise (KeyError "image")
  | Some image =>
      let image_details := {| imagePath := image |} in
      match config !! "port" with
      | None => Raise (KeyError "port")
      | Some port =>
          let ports :=
            [ {| port_name := "http"; containerPort := port;
                 protocol := "TCP" |} ] in
          Ok {| version := 3;
                containers :=
                  [ {| name := app_name;
                       imageDetails := image_details;
                       ports := ports;
                       volumeConfig := [];
                       envConfig := ∅;
                       kubernetes :=
                         {| readinessProbe := the_readiness_probe |} |} ] |}
      end
  end.

(** ** Reconciler *)

Inductive relation_event : Type :=
  RelationEvent (unit : option string) (data : string → gmap string string).

Definition ev_unit (event : relation_event) : option string :=
  match event with RelationEvent u _ => u end.

(** [event.relation.data[u]], the data bag of unit [u]. *)
Definition ev_data (event : relation_event) (u : string) : gmap string string :=
  match event with RelationEvent _ d => d u end.

Inductive event : Type :=
| Start
| ConfigChanged
| UpgradeCharm
| DatabaseRelationChanged (ev : relation_event)
| DatabaseRelationBroken (ev : relation_event).

Local Open Scope charm_scope.

Definition configure_pod (ev : event) : M unit :=
  let* db := read database in
  if negb (truthy_opt (db !! "host")) then
    set_status (WaitingStatus "Waiting for database relation")
  else
    let* problems := call _check_for_config_problems in
    if negb (String.eqb problems "") then
      set_status (BlockedStatus problems)
    else
      let* leader := read is_leader in
      if negb leader then
        set_status ActiveStatus
      else
        set_status (MaintenanceStatus "Building pod spec.");;
        let* spec := call _build_pod_spec in
        let* spec := call (λ self, _update_pod_env_config self spec) in
        set_spec spec;;
        set_status ActiveStatus.

(** ** DatabaseRelationStore *)

Definition database_fields (data : gmap string string)
  : gmap string (option string) :=
  list_to_map ((λ field, (field, data !! field)) <$> REQUIRED_DATABASE_FIELDS).

(** [d.get(field) is None]: the key is absent or bound to [None]. *)
Definition get_is_None (d : gmap string (option string)) (field : string)
  : bool :=
  match d !! field with
  | Some (Some _) => false
  | _ => true
  end.

Definition in_list (s : string) (l : list string) : bool :=
  existsb (String.eqb s) l.

(** [x not in VALID_DATABASE_TYPES], where [x] may be [None]. *)
Definition not_valid_type (x : option string) : bool :=
  match x with
  | Some t => negb (in_list t VALID_DATABASE_TYPES)
  | None => true
  end.

(** [store.database.update(new)]: the new bindings win. *)
Definition update (new old : gmap string string) : gmap string string :=
  new ∪ old.

Definition on_database_changed (ev : relation_event) : M unit :=
  let* leader := read is_leader in
  if negb leader then ret tt
  else
    match ev_unit ev with
    | None => log WARNING "event unit can't be None when setting db config." []
    | Some unit =>
        let database_fields := database_fields (ev_data ev unit) in
        let missing_fields :=
          List.filter (get_is_None database_fields) REQUIRED_DATABASE_FIELDS in
        match missing_fields with
        | _ :: _ =>
            log ERROR
              "Missing required data fields for related databaserelation: %s"
              missing_fields
        | [] =>
            match database_fields !! "type" with
            | None => call (λ _, Raise (KeyError "type"))
            | Some db_type =>
                if not_valid_type db_type then
                  log ERROR
                    "Nextcloud can only accept databases of the followingtypes: %s"
                    VALID_DATABASE_TYPES
                else
                  exec (λ self,
                    set_database
                      (update (omap id database_fields) (database self)) self);;
                  configure_pod (DatabaseRelationChanged ev)
            end
        end
    end.

Definition on_database_broken (ev : relation_event) : M unit :=
  let* leader := read is_leader in
  if negb leader then ret tt
  else exec (set_database ∅).

(** The observers registered by [__init__]. *)
Definition dispatch (ev : event) : M unit :=
  match ev with
  | Start | ConfigChanged | UpgradeCharm => configure_pod ev
  | DatabaseRelationChanged rel => on_database_changed rel
  | DatabaseRelationBroken rel => on_database_broken rel
  end.

Local Close Scope charm_scope.

(** ** Sequences of events *)

(** One delivery by the host runtime: the configuration and the leadership
    in force when the event arrives, and the event. *)
Record delivery := {
  d_config : gmap string value;
  d_leader : bool;
  d_event : event
}.

Definition set_host (cfg : gmap string value) (leader : bool) (self : charm)
  : charm :=
  {| config := cfg; is_leader := leader; database := database self;
     effects := effects self |}.

Definition deliver (self : charm) (d : delivery) : charm :=
  snd (dispatch (d_event d) (set_host (d_config d) (d_leader d) self)).

Definition run (ds : list delivery) (self : charm) : charm :=
  foldl deliver self ds.

(** ** Observing a reconciliation pass *)

Definition append_effects (es : list effect) (self : charm) : charm :=
  {| config := config self; is_leader := is_leader self;
     database := database self; effects := effects self ++ es |}.

(** What [configure_pod] returns and the calls it makes to the host, on a
    charm object with the given configuration, leadership and store and no
    earlier call. *)
Definition reconcile
    (cfg : gmap string value) (leader : bool) (db : gmap string string)
  : result unit * list effect :=
  let out :=
    configure_pod Start
      {| config := cfg; is_leader := leader; database := db; effects := [] |} in
  (fst out, effects (snd out)).

(** A published specification as the platform expects it: version 3, one
    container named after the application, and an environment that binds
    the four variables of one engine, each to a string. *)
Definition well_formed_spec (p : pod_spec) : Prop :=
  version p = 3 ∧
  ∃ c, containers p = [c] ∧ name c = app_name ∧
       (∀ k v, envConfig c !! k = Some v → is_Some v) ∧
       (dom (envConfig c) =
          list_to_set ["MYSQL_DATABASE"; "MYSQL_USER"; "MYSQL_PASSWORD";
                       "MYSQL_HOST"] ∨
        dom (envConfig c) =
          list_to_set ["POSTGRES_DB"; "POSTGRES_USER"; "POSTGRES_PASSWORD";
                       "POSTGRES_HOST"]).

Definition publishes_well_formed (e : effect) : Prop :=
  ∀ p, e = SetSpec p → well_formed_spec p.

Definition is_relation_changed (ev : event) : bool :=
  match ev with DatabaseRelationChanged _ => true | _ => false end.

(** ** What the specification says, in its own words *)

(** The setting [k] holds a non-empty (truthy) value. *)
Definition holds_truthy (cfg : gmap string value) (k : string) : bool :=
  match cfg !! k with
  | Some v => truthy v
  | None => false
  end.

(** [buildEnv(store)] of the specification. *)
Definition buildEnv_spec (db : gmap string string)
  : gmap string (option string) :=
  let t := lower (default "" (db !! "type")) in
  if decide (t = "mysql") then
    list_to_map [ ("MYSQL_DATABASE", db !! "name"); ("MYSQL_USER", db !! "user");
                  ("MYSQL_PASSWORD", db !! "password");
                  ("MYSQL_HOST", db !! "host") ]
  else if decide (t = "postgres" ∨ t = "postgresql") then
    list_to_map [ ("POSTGRES_DB", db !! "name"); ("POSTGRES_USER", db !! "user");
                  ("POSTGRES_PASSWORD", db !! "password");
                  ("POSTGRES_HOST", db !! "host") ]
  else ∅.

(** The capital of a small letter. *)
Definition capital (d : ascii) : ascii :=
  ascii_of_nat (nat_of_ascii d - 32).

Definition is_small_letter (d : ascii) : bool :=
  (Nat.leb 97 (nat_of_ascii d) && Nat.leb (nat_of_ascii d) 122)%bool.

Fixpoint all_small_letters (w : string) : bool :=
  match w with
  | EmptyString => true
  | String d rest => (is_small_letter d && all_small_letters rest)%bool
  end.

(** [t] is the word [w] (written in small letters) up to the case of its
    letters: same length, and each character of [t] is the letter of [w] at
    that place or its capital. *)
Fixpoint matches_ignoring_case (t w : string) : bool :=
  match t, w with
  | EmptyString, EmptyString => true
  | String c t', String d w' =>
      ((Ascii.eqb c d || Ascii.eqb c (capital d))
       && matches_ignoring_case t' w')%bool
  | _, _ => false
  end.

(** The environment by engine, as the claim words it: the stored type is
    read without regard to the case of its letters ([""] when the store has
    no type), and each variable is bound to what the store holds for the
    field. *)
Definition engine_env (db : gmap string string) : gmap string (option string) :=
  let t := default "" (db !! "type") in
  if matches_ignoring_case t "mysql" then
    list_to_map [ ("MYSQL_DATABASE", db !! "name"); ("MYSQL_USER", db !! "user");
                  ("MYSQL_PASSWORD", db !! "password");
                  ("MYSQL_HOST", db !! "host") ]
  else if (matches_ignoring_case t "postgres"
           || matches_ignoring_case t "postgresql")%bool then
    list_to_map [ ("POSTGRES_DB", db !! "name"); ("POSTGRES_USER", db !! "user");
                  ("POSTGRES_PASSWORD", db !! "password");
                  ("POSTGRES_HOST", db !! "host") ]
  else ∅.

(** The stored mapping is empty, or holds exactly the five fields with a
    valid type. *)
Definition store_inv (db : gmap string string) : Prop :=
  db = ∅ ∨
  ((∀ k, is_Some (db !! k) ↔ k ∈ REQUIRED_DATABASE_FIELDS) ∧
   ∃ t, db !! "type" = Some t ∧ t ∈ VALID_DATABASE_TYPES).

(** All that a unit which is never the leader does. *)
Definition waiting_or_log (e : effect) : Prop :=
  is_log e = true ∨ e = SetStatus (WaitingStatus "Waiting for database relation").

(** The five fields of a data bag, as a mapping. *)
Definition five_fields (data : gmap string string) : gmap string string :=
  omap id (database_fields data).

(** ** Sample data (from [tests/test_charm.py]) *)

Definition BASE_CONFIG : gmap string value :=
  <["port" := VInt 3000]> (<["image" := VStr "nextcloud:testing"]> ∅).

Definition test_relation_data : gmap string string :=
  <["type" := "mysql"]>
  (<["host" := "0.1.2.3:3306"]>
  (<["name" := "my-test-db"]>
  (<["user" := "test-user"]>
  (<["password" := "super!secret!password"]> ∅)))).

Definition test_event : relation_event :=
  RelationEvent (Some "mysql/0") (λ _, test_relation_data).

(** A configuration in which [port] is not set. *)
Definition config_without_port : gmap string value :=
  <["image" := VStr "nextcloud:testing"]> ∅.

(** A configuration in which [port] is zero. *)
Definition config_port_zero : gmap string value :=
  <["port" := VInt 0]> (<["image" := VStr "nextcloud:testing"]> ∅).

(** A leader that holds the test database and lacks the [port] setting. *)
Definition leader_without_port : charm :=
  set_database test_relation_data (new_charm config_without_port true).

(** A leader, and a non-leader, that hold the test database under the test
    configuration. *)
Definition leader_with_database : charm :=
  set_database test_relation_data (new_charm BASE_CONFIG true).

Definition follower_with_database : charm :=
  set_database test_relation_data (new_charm BASE_CONFIG false).

(** A store whose type is written with capitals, and one whose type is no
    engine the charm knows. *)
Definition database_mixed_case : gmap string string :=
  <["type" := "MySQL"]> test_relation_data.

Definition database_unknown_type : gmap string string :=
  <["type" := "sqlite"]> test_relation_data.

(** Relation data whose host is the empty string. *)
Definition data_with_empty_host : gmap string string :=
  <["host" := ""]> test_relation_data.

(** A specification as [_build_pod_spec] makes it, before the environment
    is filled in. *)
Definition unpatched_test_spec : pod_spec :=
  {| version := 3;
     containers :=
       [ {| name := "nextcloud";
            imageDetails := {| imagePath := VStr "nextcloud:testing" |};
            ports := [ {| port_name := "http"; containerPort := VInt 3000;
                          protocol := "TCP" |} ];
            volumeConfig := [];
            envConfig := ∅;
            kubernetes := {| readinessProbe := the_readiness_probe |} |} ] |}.

(** * Properties *)

(** ** ConfigValidator *)

Lemma check_image_present (self : charm) (v : value) :
  config self !! "image" = Some v →
  _check_for_config_problems self =
    Ok (if truthy v then "" else "required setting(s) empty: image").
Proof.
  intros Himg.
  unfold _check_for_config_problems, _missing_charm_settings, REQUIRED_SETTINGS.
  simpl. rewrite Himg. destruct (truthy v); reflexivity.
Qed.

Lemma check_image_absent (self : charm) :
  config self !! "image" = None →
  _check_for_config_problems self = Raise (KeyError "image").
Proof.
  intros Himg.
  unfold _check_for_config_problems, _missing_charm_settings, REQUIRED_SETTINGS.
  simpl. rewrite Himg. reflexivity.
Qed.

(** C1, as stated, fails: the validator does not look at [port].  With
    [image] set and [port] zero it returns the empty string. *)
Lemma check_for_config_problems_ignores_port :
  ¬ (∀ self : charm,
       _check_for_config_problems self = Ok "" ↔
       holds_truthy (config self) "image" = true ∧
       holds_truthy (config self) "port" = true).
Proof.
  intros H.
  destruct (H (new_charm config_port_zero true)) as [Hto _].
  assert (Hrun : _check_for_config_problems
                   (new_charm config_port_zero true) = Ok "")
    by reflexivity.
  destruct (Hto Hrun) as [_ Hport].
  vm_compute in Hport. discriminate Hport.
Qed.

(** C1, amended: for a configuration that defines [image],
    [_check_for_config_problems] returns the empty string exactly when
    [image] is truthy, and otherwise the message naming [image]; the result
    is the same for every charm whose configuration agrees on [image],
    whatever [port] is. *)
Theorem check_for_config_problems_image (self : charm) (v : value) :
  config self !! "image" = Some v →
  (_check_for_config_problems self = Ok "" ↔ truthy v = true) ∧
  (truthy v = false →
   _check_for_config_problems self = Ok "required setting(s) empty: image") ∧
  (∀ other : charm,
     config other !! "image" = Some v →
     _check_for_config_problems other = _check_for_config_problems self).
Proof.
  intros Himg. rewrite (check_image_present self v Himg).
  split; [|split].
  - destruct (truthy v); split; intros H; try reflexivity; discriminate H.
  - intros ->. reflexivity.
  - intros other Hother. apply (check_image_present other v Hother).
Qed.

Lemma check_for_config_problems_image_witness :
  config (new_charm config_port_zero true) !! "image"
    = Some (VStr "nextcloud:testing") ∧
  _check_for_config_problems (new_charm config_port_zero true)
    = Ok "".
Proof.
  split; [reflexivity|].
  apply (check_for_config_problems_image
           (new_charm config_port_zero true)
           (VStr "nextcloud:testing")); reflexivity.
Defined.

(** ** EnvMapper *)

Lemma env_of_database_spec (db : gmap string string) :
  env_of_database db = buildEnv_spec db.
Proof.
  unfold env_of_database, buildEnv_spec.
  set (t := lower (default "" (db !! "type"))).
  destruct (String.eqb_spec t "mysql") as [Hm|Hm].
  - rewrite Hm. reflexivity.
  - rewrite (decide_False (P := t = "mysql")) by exact Hm.
    destruct (String.eqb_spec t "postgresql") as [Hq|Hq].
    + rewrite Hq. reflexivity.
    + destruct (String.eqb_spec t "postgres") as [Hp|Hp].
      * rewrite Hp. reflexivity.
      * rewrite (decide_False (P := t = "postgres" ∨ t = "postgresql"))
          by (intros [?|?]; contradiction).
        reflexivity.
Qed.

(** [str.lower] against a word in small letters, character by character. *)
Lemma lower_ascii_matches (c d : ascii) :
  is_small_letter d = true →
  Ascii.eqb (lower_ascii c) d = (Ascii.eqb c d || Ascii.eqb c (capital d))%bool.
Proof.
  unfold is_small_letter. rewrite andb_true_iff, !Nat.leb_le. intros [Hlo Hhi].
  pose proof (nat_ascii_bounded c) as Hc.
  apply eq_true_iff_eq. rewrite orb_true_iff, !Ascii.eqb_eq.
  unfold lower_ascii, capital.
  destruct (Nat.leb 65 (nat_of_ascii c) && Nat.leb (nat_of_ascii c) 90)%bool
    eqn:Hfold.
  - apply andb_true_iff in Hfold as [H65 H90].
    apply Nat.leb_le in H65, H90. split.
    + intros Heq. right.
      assert (Hn : (nat_of_ascii c + 32)%nat = nat_of_ascii d).
      { rewrite <- Heq. symmetry. apply nat_ascii_embedding. lia. }
      replace (nat_of_ascii d - 32)%nat with (nat_of_ascii c) by lia.
      symmetry. apply ascii_nat_embedding.
    + intros [-> | ->]; [lia|].
      rewrite nat_ascii_embedding by lia.
      replace (nat_of_ascii d - 32 + 32)%nat with (nat_of_ascii d) by lia.
      apply ascii_nat_embedding.
  - split; [intros ->; left; reflexivity|].
    intros [-> | ->]; [reflexivity|].
    rewrite nat_ascii_embedding in Hfold by lia.
    apply andb_false_iff in Hfold as [H|H]; apply Nat.leb_gt in H; lia.
Qed.

Lemma lower_matches (t w : string) :
  all_small_letters w = true →
  String.eqb (lower t) w = matches_ignoring_case t w.
Proof.
  revert w. induction t as [|c t IH]; intros [|d w] Hw; try reflexivity.
  simpl in Hw. apply andb_true_iff in Hw as [Hd Hw].
  simpl. rewrite (lower_ascii_matches c d Hd), (IH w Hw).
  destruct (Ascii.eqb c d || Ascii.eqb c (capital d))%bool; reflexivity.
Qed.

Lemma env_of_database_engine (db : gmap string string) :
  env_of_database db = engine_env db.
Proof.
  unfold engine_env. cbv zeta.
  rewrite <- !lower_matches by reflexivity.
  unfold env_of_database.
  set (t := lower (default "" (db !! "type"))).
  destruct (String.eqb_spec t "mysql") as [->|Hm]; [reflexivity|].
  destruct (String.eqb t "postgresql"), (String.eqb t "postgres"); reflexivity.
Qed.

(** C8: [_update_pod_env_config] returns the specification with the
    [envConfig] of [containers[0]] set, and nothing else changed, to the
    mapping chosen by the stored type read without regard to letter case:
    [{MYSQL_DATABASE: name, MYSQL_USER: user, MYSQL_PASSWORD: password,
    MYSQL_HOST: host}] for [mysql], the [POSTGRES_DB], [POSTGRES_USER],
    [POSTGRES_PASSWORD], [POSTGRES_HOST] mapping for [postgres] and
    [postgresql], the empty mapping for any other type and for the empty
    store; the values are what the store holds, and nothing is raised. *)
Theorem update_pod_env_config_by_type
    (self : charm) (v : Z) (c : container) (rest : list container) :
  (∃ c',
     _update_pod_env_config self {| version := v; containers := c :: rest |} =
       Ok {| version := v; containers := c' :: rest |}
     ∧ envConfig c' = engine_env (database self)
     ∧ name c' = name c
     ∧ imageDetails c' = imageDetails c
     ∧ ports c' = ports c
     ∧ volumeConfig c' = volumeConfig c
     ∧ kubernetes c' = kubernetes c)
  ∧ engine_env ∅ = ∅.
Proof.
  split; [|reflexivity].
  unfold _update_pod_env_config. cbn [containers version].
  eexists. split; [reflexivity|].
  cbn [envConfig name imageDetails ports volumeConfig kubernetes set_envConfig].
  split; [apply env_of_database_engine|].
  repeat split.
Qed.

(** ** PodSpecBuilder *)

(** C9: [_build_pod_spec] is a function of [config['image']] and
    [config['port']] only: two charm objects that agree on these two
    settings get the same result, whatever their stores, leadership, other
    settings and earlier calls to the host; the result is the version-3
    specification with one container, one [http] port entry, no volumes, an
    empty environment and the fixed readiness probe. *)
Theorem build_pod_spec_from_config
    (self other : charm) (image port : value) :
  config self !! "image" = Some image →
  config self !! "port" = Some port →
  config other !! "image" = Some image →
  config other !! "port" = Some port →
  _build_pod_spec self =
    Ok {| version := 3;
          containers :=
            [ {| name := app_name;
                 imageDetails := {| imagePath := image |};
                 ports := [ {| port_name := "http"; containerPort := port;
                               protocol := "TCP" |} ];
                 volumeConfig := [];
                 envConfig := ∅;
                 kubernetes :=
                   {| readinessProbe :=
                        {| httpGet := {| probe_path := "/status.php";
                                         probe_port := "http" |};
                           initialDelaySeconds := 10;
                           timeoutSeconds := 30 |} |} |} ] |}
  ∧ _build_pod_spec other = _build_pod_spec self.
Proof.
  intros Hi Hp Hi' Hp'.
  unfold _build_pod_spec. rewrite Hi, Hp, Hi', Hp'.
  split; reflexivity.
Qed.

(** ** DatabaseRelationStore: relation broken *)

(** C7: [on_database_broken] returns the charm object untouched when the
    unit is not the leader, and otherwise empties the stored mapping; in
    both cases it makes no call to the host, so the status and the
    specification last handed over stay what they were. *)
Theorem on_database_broken_effect (ev : relation_event) (self : charm) :
  on_database_broken ev self =
    (Ok tt, if is_leader self then set_database ∅ self else self)
  ∧ database (snd (on_database_broken ev self))
      = (if is_leader self then ∅ else database self)
  ∧ effects (snd (on_database_broken ev self)) = effects self
  ∧ last_status (effects (snd (on_database_broken ev self)))
      = last_status (effects self)
  ∧ last_spec (effects (snd (on_database_broken ev self)))
      = last_spec (effects self).
Proof.
  unfold on_database_broken, bind, read, ret, exec.
  destruct (is_leader self); simpl; repeat split; reflexivity.
Qed.

(** ** DatabaseRelationStore: relation changed *)

Lemma in_list_elem_of (s : string) (l : list string) :
  in_list s l = true ↔ s ∈ l.
Proof.
  unfold in_list. rewrite existsb_exists, list_elem_of_In. split.
  - intros [x [Hin Heq]]. apply String.eqb_eq in Heq. subst x. exact Hin.
  - intros Hin. exists s. split; [exact Hin | apply String.eqb_refl].
Qed.

Lemma lookup_database_fields (data : gmap string string) (k : string) :
  database_fields data !! k =
    if in_list k REQUIRED_DATABASE_FIELDS then Some (data !! k) else None.
Proof.
  unfold database_fields, in_list, REQUIRED_DATABASE_FIELDS. simpl.
  repeat (rewrite lookup_insert;
          destruct (decide (_ = k)) as [<-|Hk];
          [ reflexivity
          | apply not_eq_sym, String.eqb_neq in Hk; rewrite Hk; clear Hk;
            simpl ]).
  apply lookup_empty.
Qed.

Lemma lookup_five_fields (data : gmap string string) (k : string) :
  five_fields data !! k =
    if in_list k REQUIRED_DATABASE_FIELDS then data !! k else None.
Proof.
  unfold five_fields. rewrite lookup_omap, lookup_database_fields.
  destruct (in_list k REQUIRED_DATABASE_FIELDS); [|reflexivity].
  simpl. destruct (data !! k); reflexivity.
Qed.

Lemma get_is_None_field (data : gmap string string) (f : string) :
  in_list f REQUIRED_DATABASE_FIELDS = true →
  get_is_None (database_fields data) f =
    match data !! f with Some _ => false | None => true end.
Proof.
  intros Hf. unfold get_is_None. rewrite lookup_database_fields, Hf.
  reflexivity.
Qed.

(** The list of missing fields, on the data bag itself. *)
Lemma missing_fields_data (data : gmap string string) :
  List.filter (get_is_None (database_fields data)) REQUIRED_DATABASE_FIELDS =
  List.filter (λ f, match data !! f with Some _ => false | None => true end)
    REQUIRED_DATABASE_FIELDS.
Proof.
  apply List.filter_ext_in. intros f Hf.
  apply get_is_None_field, in_list_elem_of, list_elem_of_In, Hf.
Qed.

Lemma missing_fields_nil (data : gmap string string) :
  List.filter (get_is_None (database_fields data)) REQUIRED_DATABASE_FIELDS = []
  ↔ ∀ f, f ∈ REQUIRED_DATABASE_FIELDS → is_Some (data !! f).
Proof.
  rewrite missing_fields_data. split.
  - intros Hnil f Hf. apply list_elem_of_In in Hf.
    destruct (data !! f) eqn:Hlook; [eauto|].
    assert (Hin : In f (List.filter
                          (λ f, match data !! f with
                                | Some _ => false | None => true end)
                          REQUIRED_DATABASE_FIELDS)).
    { apply List.filter_In. split; [exact Hf|]. rewrite Hlook. reflexivity. }
    rewrite Hnil in Hin. destruct Hin.
  - intros Hall.
    destruct (List.filter _ REQUIRED_DATABASE_FIELDS) as [|f rest] eqn:Hfilter;
      [reflexivity|].
    assert (Hin : In f (f :: rest)) by (left; reflexivity).
    rewrite <- Hfilter in Hin. apply List.filter_In in Hin as [Hf Hnone].
    apply list_elem_of_In in Hf. destruct (Hall f Hf) as [v Hv].
    rewrite Hv in Hnone. discriminate Hnone.
Qed.

(** The handler, case by case. *)

Ltac enter_handler :=
  unfold on_database_changed, on_database_broken, bind, read, ret;
  cbv beta iota;
  repeat match goal with
         | H : is_leader _ = _ |- _ => rewrite H
         | H : ev_unit _ = _ |- _ => rewrite H
         end;
  cbv beta iota zeta delta [negb].

Lemma on_database_changed_not_leader (ev : relation_event) (self : charm) :
  is_leader self = false → on_database_changed ev self = (Ok tt, self).
Proof.
  intros Hl. enter_handler. reflexivity.
Qed.

Lemma on_database_changed_no_unit (ev : relation_event) (self : charm) :
  is_leader self = true → ev_unit ev = None →
  on_database_changed ev self =
    (Ok tt,
     emit (Log WARNING "event unit can't be None when setting db config." [])
       self).
Proof.
  intros Hl Hu. enter_handler. reflexivity.
Qed.

Lemma on_database_changed_missing
    (ev : relation_event) (self : charm) (u f : string) :
  is_leader self = true → ev_unit ev = Some u →
  f ∈ REQUIRED_DATABASE_FIELDS → ev_data ev u !! f = None →
  ∃ missing,
    on_database_changed ev self =
      (Ok tt,
       emit (Log ERROR
               "Missing required data fields for related databaserelation: %s"
               missing) self)
    ∧ f ∈ missing.
Proof.
  intros Hl Hu Hf Hnone. enter_handler.
  destruct (List.filter _ REQUIRED_DATABASE_FIELDS) as [|m rest] eqn:Hfilter.
  - destruct (proj1 (missing_fields_nil _) Hfilter f Hf) as [v Hv].
    rewrite Hv in Hnone. discriminate Hnone.
  - eexists. split; [reflexivity|].
    rewrite <- Hfilter. apply list_elem_of_In, List.filter_In.
    split; [apply list_elem_of_In, Hf|].
    rewrite get_is_None_field by (apply in_list_elem_of, Hf).
    rewrite Hnone. reflexivity.
Qed.

Lemma on_database_changed_complete
    (ev : relation_event) (self : charm) (u t : string) :
  is_leader self = true → ev_unit ev = Some u →
  (∀ f, f ∈ REQUIRED_DATABASE_FIELDS → is_Some (ev_data ev u !! f)) →
  ev_data ev u !! "type" = Some t →
  on_database_changed ev self =
    if in_list t VALID_DATABASE_TYPES then
      configure_pod (DatabaseRelationChanged ev)
        (set_database (update (five_fields (ev_data ev u)) (database self)) self)
    else
      (Ok tt,
       emit (Log ERROR
               "Nextcloud can only accept databases of the followingtypes: %s"
               VALID_DATABASE_TYPES) self).
Proof.
  intros Hl Hu Hall Ht. enter_handler.
  rewrite (proj2 (missing_fields_nil _) Hall).
  rewrite lookup_database_fields.
  change (in_list "type" REQUIRED_DATABASE_FIELDS) with true.
  cbv beta iota. rewrite Ht. unfold not_valid_type.
  destruct (in_list t VALID_DATABASE_TYPES); reflexivity.
Qed.

(** Every field is present, or one of them is missing. *)
Lemma fields_complete_or_missing (data : gmap string string) :
  (∀ f, f ∈ REQUIRED_DATABASE_FIELDS → is_Some (data !! f)) ∨
  (∃ f, f ∈ REQUIRED_DATABASE_FIELDS ∧ data !! f = None).
Proof.
  destruct (List.filter (get_is_None (database_fields data))
              REQUIRED_DATABASE_FIELDS) as [|f rest] eqn:Hfilter.
  - left. apply missing_fields_nil, Hfilter.
  - right. exists f.
    assert (Hin : In f (f :: rest)) by (left; reflexivity).
    rewrite <- Hfilter, missing_fields_data in Hin.
    apply List.filter_In in Hin as [Hf Hnone].
    split; [apply list_elem_of_In, Hf|].
    destruct (data !! f); [discriminate Hnone | reflexivity].
Qed.

(** ** Reconciler *)

Ltac enter_configure_pod :=
  unfold configure_pod, bind, read, call, set_status, set_spec, exec;
  cbv beta iota.

Lemma configure_pod_waiting (ev : event) (self : charm) :
  truthy_opt (database self !! "host") = false →
  configure_pod ev self =
    (Ok tt, emit (SetStatus (WaitingStatus "Waiting for database relation")) self).
Proof. intros Hhost. enter_configure_pod. rewrite Hhost. reflexivity. Qed.

(** [configure_pod] never assigns the store. *)
Lemma configure_pod_database (ev : event) (self : charm) :
  database (snd (configure_pod ev self)) = database self.
Proof.
  enter_configure_pod.
  destruct (truthy_opt (database self !! "host")); [|reflexivity]. simpl.
  destruct (_check_for_config_problems self) as [problems|e]; [|reflexivity].
  destruct (String.eqb problems ""); [|reflexivity]. simpl.
  destruct (is_leader self); [|reflexivity]. simpl.
  destruct (_build_pod_spec _) as [spec|e]; [|reflexivity].
  destruct (_update_pod_env_config _ spec) as [spec'|e]; reflexivity.
Qed.

(** The chain of [configure_pod] for a configuration that defines both
    settings: the four branches in order, and no exception. *)
Lemma configure_pod_chain (ev : event) (self : charm) (image port : value) :
  config self !! "image" = Some image →
  config self !! "port" = Some port →
  ∃ spec,
    _build_pod_spec self = Ok spec ∧
    configure_pod ev self =
      (Ok tt,
       if negb (truthy_opt (database self !! "host")) then
         emit (SetStatus (WaitingStatus "Waiting for database relation")) self
       else if negb (truthy image) then
         emit (SetStatus (BlockedStatus "required setting(s) empty: image")) self
       else if negb (is_leader self) then
         emit (SetStatus ActiveStatus) self
       else
         emit (SetStatus ActiveStatus)
           (emit (SetSpec
                    {| version := version spec;
                       containers :=
                         set_envConfig (buildEnv_spec (database self))
                           <$> containers spec |})
              (emit (SetStatus (MaintenanceStatus "Building pod spec.")) self))).
Proof.
  intros Hi Hp.
  destruct (build_pod_spec_from_config self self image port Hi Hp Hi Hp)
    as [Hspec _].
  eexists. split; [exact Hspec|].
  enter_configure_pod.
  destruct (truthy_opt (database self !! "host")); [|reflexivity]. simpl.
  rewrite (check_image_present self image Hi).
  destruct (truthy image); [|reflexivity]. simpl.
  destruct (is_leader self); [|reflexivity]. simpl.
  unfold _build_pod_spec, _update_pod_env_config. simpl. rewrite Hi, Hp. simpl.
  rewrite env_of_database_spec. reflexivity.
Qed.

(** X13: under a configuration that defines both [image] and [port], every
    handler ([configure_pod] on start, config-changed and upgrade-charm,
    [on_database_changed], [on_database_broken]) returns normally, whatever
    the store, the leadership and the event. *)
Lemma handlers_return_when_settings_defined
    (ev : event) (self : charm) (image port : value) :
  config self !! "image" = Some image →
  config self !! "port" = Some port →
  fst (dispatch ev self) = Ok tt.
Proof.
  intros Hi Hp. destruct ev as [| | |rel|rel]; simpl.
  1-3: match goal with
       | |- fst (configure_pod ?e _) = _ =>
           destruct (configure_pod_chain e self image port Hi Hp)
             as [spec [_ ->]]
       end; reflexivity.
  - destruct (is_leader self) eqn:Hl;
      [|rewrite on_database_changed_not_leader by exact Hl; reflexivity].
    destruct (ev_unit rel) as [u|] eqn:Hu;
      [|rewrite on_database_changed_no_unit by assumption; reflexivity].
    destruct (fields_complete_or_missing (ev_data rel u)) as [Hall|[f [Hf Hnone]]].
    + destruct (Hall "type") as [t Ht];
        [apply in_list_elem_of; reflexivity|].
      rewrite (on_database_changed_complete rel self u t Hl Hu Hall Ht).
      destruct (in_list t VALID_DATABASE_TYPES); [|reflexivity].
      destruct (configure_pod_chain (DatabaseRelationChanged rel)
                  (set_database
                     (update (five_fields (ev_data rel u)) (database self)) self)
                  image port Hi Hp) as [spec [_ ->]].
      reflexivity.
    + destruct (on_database_changed_missing rel self u f Hl Hu Hf Hnone)
        as [missing [-> _]].
      reflexivity.
  - unfold on_database_broken, bind, read, ret, exec.
    destruct (is_leader self); reflexivity.
Qed.

(** ** DatabaseRelationStore: rejected and accepted updates *)

(** C4: when the unit is not the leader, or the event has no originating
    unit, or one of the five fields is absent from the relation data, or
    the type is not a valid one, [on_database_changed] returns normally,
    the stored mapping is what it was, and the charm object is unchanged
    except for at most one log record: no status is set and no
    specification is published, so no reconciliation ran. *)
Theorem on_database_changed_rejects (ev : relation_event) (self : charm) :
  is_leader self = false
  ∨ ev_unit ev = None
  ∨ (∃ u f, ev_unit ev = Some u ∧ f ∈ REQUIRED_DATABASE_FIELDS ∧
            ev_data ev u !! f = None)
  ∨ (∃ u t, ev_unit ev = Some u ∧ ev_data ev u !! "type" = Some t ∧
            t ∉ VALID_DATABASE_TYPES) →
  database (snd (on_database_changed ev self)) = database self ∧
  (on_database_changed ev self = (Ok tt, self) ∨
   ∃ lvl format args,
     on_database_changed ev self = (Ok tt, emit (Log lvl format args) self)).
Proof.
  intros Hcase.
  destruct (is_leader self) eqn:Hl;
    [|rewrite on_database_changed_not_leader by exact Hl;
      split; [reflexivity | left; reflexivity]].
  destruct (ev_unit ev) as [u|] eqn:Hu;
    [|rewrite on_database_changed_no_unit by assumption;
      split; [reflexivity | right; eauto]].
  destruct (fields_complete_or_missing (ev_data ev u)) as [Hall|[f [Hf Hnone]]].
  - destruct Hcase as [Hc|[Hc|[Hc|Hc]]]; try discriminate Hc.
    + destruct Hc as [u' [f [Hu' [Hf Hnone]]]].
      injection Hu' as <-. destruct (Hall f Hf) as [v Hv].
      rewrite Hv in Hnone. discriminate Hnone.
    + destruct Hc as [u' [t [Hu' [Ht Hbad]]]]. injection Hu' as <-.
      rewrite (on_database_changed_complete ev self u t Hl Hu Hall Ht).
      destruct (in_list t VALID_DATABASE_TYPES) eqn:Hvalid.
      * apply in_list_elem_of in Hvalid. contradiction.
      * split; [reflexivity | right; eauto].
  - destruct (on_database_changed_missing ev self u f Hl Hu Hf Hnone)
      as [missing [-> _]].
    split; [reflexivity | right; eauto].
Qed.

(** The five fields of a complete data bag. *)
Lemma five_fields_complete (data : gmap string string) (t h n u p : string) :
  data !! "type" = Some t → data !! "host" = Some h →
  data !! "name" = Some n → data !! "user" = Some u →
  data !! "password" = Some p →
  five_fields data =
    <["type" := t]> (<["host" := h]> (<["name" := n]>
      (<["user" := u]> (<["password" := p]> ∅)))).
Proof.
  intros Ht Hh Hn Hu Hp. apply map_eq. intros k.
  rewrite lookup_five_fields. unfold in_list, REQUIRED_DATABASE_FIELDS. simpl.
  repeat (rewrite lookup_insert;
          destruct (decide (_ = k)) as [<-|Hk];
          [ simpl; assumption
          | apply not_eq_sym, String.eqb_neq in Hk; rewrite Hk; clear Hk;
            simpl ]).
  symmetry. apply lookup_empty.
Qed.

(** On a store that satisfies the invariant, merging a complete data bag is
    the same as replacing the store by the bag's five fields. *)
Lemma update_replaces (data old : gmap string string) :
  (∀ f, f ∈ REQUIRED_DATABASE_FIELDS → is_Some (data !! f)) →
  store_inv old →
  update (five_fields data) old = five_fields data.
Proof.
  intros Hall Hinv. apply map_eq. intros k. unfold update.
  destruct (in_list k REQUIRED_DATABASE_FIELDS) eqn:Hk.
  - apply lookup_union_l'. rewrite lookup_five_fields, Hk.
    apply Hall, in_list_elem_of, Hk.
  - rewrite lookup_union_r by (rewrite lookup_five_fields, Hk; reflexivity).
    rewrite lookup_five_fields, Hk.
    destruct Hinv as [->|[Hkeys _]]; [apply lookup_empty|].
    destruct (old !! k) eqn:Hold; [|reflexivity].
    assert (Hin : k ∈ REQUIRED_DATABASE_FIELDS) by (apply Hkeys; eauto).
    apply in_list_elem_of in Hin. rewrite Hin in Hk. discriminate Hk.
Qed.

Lemma five_fields_inv (data : gmap string string) (t : string) :
  (∀ f, f ∈ REQUIRED_DATABASE_FIELDS → is_Some (data !! f)) →
  data !! "type" = Some t → t ∈ VALID_DATABASE_TYPES →
  store_inv (five_fields data).
Proof.
  intros Hall Ht Hvalid. right. split.
  - intros k. rewrite lookup_five_fields. split.
    + destruct (in_list k REQUIRED_DATABASE_FIELDS) eqn:Hk.
      * intros _. apply in_list_elem_of, Hk.
      * intros [v Hv]. discriminate Hv.
    + intros Hk. pose proof (proj2 (in_list_elem_of _ _) Hk) as ->.
      apply Hall, Hk.
  - exists t. split; [|exact Hvalid].
    rewrite lookup_five_fields. exact Ht.
Qed.

(** Every handler keeps the invariant of the store. *)
Lemma dispatch_store_inv (ev : event) (self : charm) :
  store_inv (database self) → store_inv (database (snd (dispatch ev self))).
Proof.
  intros Hinv. destruct ev as [| | |rel|rel]; simpl.
  1-3: rewrite configure_pod_database; exact Hinv.
  - destruct (is_leader self) eqn:Hl;
      [|rewrite on_database_changed_not_leader by exact Hl; exact Hinv].
    destruct (ev_unit rel) as [u|] eqn:Hu;
      [|rewrite on_database_changed_no_unit by assumption; exact Hinv].
    destruct (fields_complete_or_missing (ev_data rel u)) as [Hall|[f [Hf Hnone]]].
    + destruct (Hall "type") as [t Ht];
        [apply in_list_elem_of; reflexivity|].
      rewrite (on_database_changed_complete rel self u t Hl Hu Hall Ht).
      destruct (in_list t VALID_DATABASE_TYPES) eqn:Hvalid; [|exact Hinv].
      rewrite configure_pod_database. simpl.
      rewrite (update_replaces _ _ Hall Hinv).
      apply (five_fields_inv _ t Hall Ht), in_list_elem_of, Hvalid.
    + destruct (on_database_changed_missing rel self u f Hl Hu Hf Hnone)
        as [missing [-> _]].
      exact Hinv.
  - unfold on_database_broken, bind, read, ret, exec.
    destruct (is_leader self); simpl; [left; reflexivity | exact Hinv].
Qed.

Lemma run_store_inv (ds : list delivery) (self : charm) :
  store_inv (database self) → store_inv (database (run ds self)).
Proof.
  revert self. induction ds as [|d ds IH]; intros self Hinv; [exact Hinv|].
  simpl. apply IH. unfold deliver. apply dispatch_store_inv. exact Hinv.
Qed.

(** C5: from the initial empty store, after any sequence of deliveries
    (relation changed, relation broken, and the three events that only
    reconcile; any leadership, configuration and relation data at each),
    the stored mapping is empty or binds exactly the five fields [type],
    [host], [name], [user], [password], each to a string, with [type] one
    of [mysql] and [postgres]. *)
Theorem store_invariant
    (ds : list delivery) (cfg : gmap string value) (leader : bool) :
  let db := database (run ds (new_charm cfg leader)) in
  db = ∅ ∨
  ((∀ k, is_Some (db !! k) ↔
         k ∈ ["type"; "host"; "name"; "user"; "password"]) ∧
   ∃ t, db !! "type" = Some t ∧ t ∈ ["mysql"; "postgres"]).
Proof.
  apply (run_store_inv ds (new_charm cfg leader)). left. reflexivity.
Qed.

(** C6: on the leader, for an event with an originating unit whose data
    hold all five fields with a valid type, [on_database_changed] merges
    the five values into the store and then runs [configure_pod] on the
    result.  The merge overwrites the five fields and keeps every other
    binding of the old store; on a store reached from the initial one the
    result is exactly the five-field mapping. *)
Theorem on_database_changed_merges
    (ev : relation_event) (self : charm) (unit t h n u p : string) :
  is_leader self = true →
  ev_unit ev = Some unit →
  ev_data ev unit !! "type" = Some t →
  ev_data ev unit !! "host" = Some h →
  ev_data ev unit !! "name" = Some n →
  ev_data ev unit !! "user" = Some u →
  ev_data ev unit !! "password" = Some p →
  t ∈ VALID_DATABASE_TYPES →
  let new : gmap string string :=
    <["type" := t]> (<["host" := h]> (<["name" := n]>
      (<["user" := u]> (<["password" := p]> ∅)))) in
  on_database_changed ev self =
    configure_pod (DatabaseRelationChanged ev)
      (set_database (new ∪ database self) self)
  ∧ database (snd (on_database_changed ev self)) = new ∪ database self
  ∧ (∀ k v, new !! k = Some v → (new ∪ database self) !! k = Some v)
  ∧ (∀ k, new !! k = None → (new ∪ database self) !! k = database self !! k)
  ∧ (∀ ds cfg leader,
       database self = database (run ds (new_charm cfg leader)) →
       new ∪ database self = new).
Proof.
  intros Hl Hunit Ht Hh Hn Hu Hp Hvalid new.
  assert (Hall : ∀ f, f ∈ REQUIRED_DATABASE_FIELDS →
                      is_Some (ev_data ev unit !! f)).
  { intros f Hf. apply list_elem_of_In in Hf.
    unfold REQUIRED_DATABASE_FIELDS in Hf. simpl in Hf.
    destruct Hf as [<-|[<-|[<-|[<-|[<-|[]]]]]]; eauto. }
  assert (Hnew : five_fields (ev_data ev unit) = new)
    by (apply five_fields_complete; assumption).
  assert (Hrun : on_database_changed ev self =
                 configure_pod (DatabaseRelationChanged ev)
                   (set_database (new ∪ database self) self)).
  { rewrite (on_database_changed_complete ev self unit t Hl Hunit Hall Ht).
    rewrite (proj2 (in_list_elem_of _ _) Hvalid). unfold update.
    rewrite Hnew. reflexivity. }
  split; [exact Hrun|]. split; [|split; [|split]].
  - rewrite Hrun, configure_pod_database. reflexivity.
  - intros k v Hk. apply lookup_union_Some_l, Hk.
  - intros k Hk. apply lookup_union_r, Hk.
  - intros ds cfg leader Hreach. rewrite <- Hnew.
    apply (update_replaces _ _ Hall). rewrite Hreach.
    apply run_store_inv. left. reflexivity.
Qed.

(** ** A unit that is never the leader *)

Lemma dispatch_non_leader (ev : event) (self : charm) :
  is_leader self = false → database self = ∅ →
  dispatch ev self = (Ok tt, self) ∨
  dispatch ev self =
    (Ok tt, emit (SetStatus (WaitingStatus "Waiting for database relation")) self).
Proof.
  intros Hl Hdb. destruct ev as [| | |rel|rel]; simpl.
  1-3: right; apply configure_pod_waiting; rewrite Hdb; reflexivity.
  - left. apply on_database_changed_not_leader, Hl.
  - left. enter_handler. reflexivity.
Qed.

Lemma run_non_leader (ds : list delivery) (self : charm) :
  Forall (λ d, d_leader d = false) ds →
  database self = ∅ → Forall waiting_or_log (effects self) →
  database (run ds self) = ∅ ∧ Forall waiting_or_log (effects (run ds self)).
Proof.
  revert self. induction ds as [|d ds IH]; intros self Hds Hdb Heff;
    [split; assumption|].
  apply Forall_cons in Hds as [Hd Hds]. simpl.
  assert (Hstep : deliver self d = set_host (d_config d) false self ∨
                  deliver self d =
                    emit (SetStatus (WaitingStatus "Waiting for database relation"))
                      (set_host (d_config d) false self)).
  { unfold deliver. rewrite Hd.
    destruct (dispatch_non_leader (d_event d)
                (set_host (d_config d) false self) eq_refl Hdb) as [->| ->];
      [left | right]; reflexivity. }
  destruct Hstep as [-> | ->]; apply IH; try assumption.
  simpl. apply Forall_app. split; [exact Heff|].
  apply Forall_cons. split; [right; reflexivity | apply Forall_nil_2].
Qed.

Lemma waiting_or_log_no_spec (es : list effect) :
  Forall waiting_or_log es → last_spec es = None.
Proof.
  induction 1 as [|e es He _ IH]; [reflexivity|].
  simpl. rewrite IH. destruct He as [He | ->]; [|reflexivity].
  destruct e; [reflexivity | discriminate He | reflexivity].
Qed.

(** C10: on a unit that is not the leader at any delivery, starting from
    the initial empty store, the store stays empty, everything the charm
    does is a log record or the assignment of
    [WaitingStatus('Waiting for database relation')] (so the status is never
    set to Active), no specification is published, and [configure_pod]
    called at that point, under any configuration, sets that waiting status
    and returns. *)
Theorem never_leader_waits
    (ds : list delivery) (cfg : gmap string value) :
  Forall (λ d, d_leader d = false) ds →
  let self := run ds (new_charm cfg false) in
  database self = ∅
  ∧ Forall (λ e, is_log e = true ∨
                 e = SetStatus (WaitingStatus "Waiting for database relation"))
      (effects self)
  ∧ last_spec (effects self) = None
  ∧ (∀ ev cfg',
       configure_pod ev (set_host cfg' false self) =
         (Ok tt,
          emit (SetStatus (WaitingStatus "Waiting for database relation"))
            (set_host cfg' false self))).
Proof.
  intros Hds self.
  destruct (run_non_leader ds (new_charm cfg false) Hds eq_refl)
    as [Hdb Heff].
  { apply Forall_cons. split; [left; reflexivity | apply Forall_nil_2]. }
  split; [exact Hdb|]. split; [exact Heff|].
  split; [apply waiting_or_log_no_spec, Heff|].
  intros ev cfg'. apply configure_pod_waiting.
  change (database (set_host cfg' false self))
    with (database (run ds (new_charm cfg false))).
  rewrite Hdb. reflexivity.
Qed.

(** * Further properties of the handlers *)

(** ** One reconciliation pass *)

Lemma emit_append (e : effect) (self : charm) :
  emit e self = append_effects [e] self.
Proof. reflexivity. Qed.

Lemma append_effects_nil (self : charm) : append_effects [] self = self.
Proof.
  destruct self as [cfg l db es]. unfold append_effects. simpl.
  rewrite app_nil_r. reflexivity.
Qed.

(** [configure_pod], branch by branch, with what each exit leaves behind. *)
Lemma configure_pod_unfold (ev : event) (self : charm) :
  configure_pod ev self =
    if negb (truthy_opt (database self !! "host")) then
      (Ok tt,
       emit (SetStatus (WaitingStatus "Waiting for database relation")) self)
    else
      match _check_for_config_problems self with
      | Raise e => (Raise e, self)
      | Ok problems =>
          if negb (String.eqb problems "") then
            (Ok tt, emit (SetStatus (BlockedStatus problems)) self)
          else if negb (is_leader self) then
            (Ok tt, emit (SetStatus ActiveStatus) self)
          else
            match _build_pod_spec self with
            | Raise e =>
                (Raise e,
                 emit (SetStatus (MaintenanceStatus "Building pod spec.")) self)
            | Ok spec =>
                match _update_pod_env_config self spec with
                | Raise e =>
                    (Raise e,
                     emit (SetStatus (MaintenanceStatus "Building pod spec."))
                       self)
                | Ok spec' =>
                    (Ok tt,
                     emit (SetStatus ActiveStatus)
                       (emit (SetSpec spec')
                          (emit (SetStatus
                                   (MaintenanceStatus "Building pod spec."))
                             self)))
                end
            end
      end.
Proof.
  enter_configure_pod.
  destruct (truthy_opt (database self !! "host")); [|reflexivity]. simpl.
  destruct (_check_for_config_problems self) as [problems|e]; [|reflexivity].
  destruct (String.eqb problems ""); [|reflexivity]. simpl.
  destruct (is_leader self); [|reflexivity]. simpl.
  change (_build_pod_spec
            (emit (SetStatus (MaintenanceStatus "Building pod spec.")) self))
    with (_build_pod_spec self).
  destruct (_build_pod_spec self) as [spec|e]; [|reflexivity].
  change (_update_pod_env_config
            (emit (SetStatus (MaintenanceStatus "Building pod spec.")) self)
            spec)
    with (_update_pod_env_config self spec).
  destruct (_update_pod_env_config self spec) as [spec'|e]; reflexivity.
Qed.

(** The outcome of a pass and the calls it makes depend on the
    configuration, the leadership and the store only: not on the event, and
    not on the calls made before. *)
Lemma configure_pod_reconcile (ev : event) (self : charm) :
  configure_pod ev self =
    (fst (reconcile (config self) (is_leader self) (database self)),
     append_effects
       (snd (reconcile (config self) (is_leader self) (database self))) self).
Proof.
  unfold reconcile. rewrite !configure_pod_unfold.
  destruct self as [cfg l db es]. simpl.
  destruct (truthy_opt (db !! "host")); [|reflexivity]. simpl.
  change (_check_for_config_problems
            {| config := cfg; is_leader := l; database := db; effects := [] |})
    with (_check_for_config_problems
            {| config := cfg; is_leader := l; database := db; effects := es |}).
  destruct (_check_for_config_problems _) as [problems|e];
    [|simpl; unfold append_effects; simpl; rewrite app_nil_r; reflexivity].
  destruct (String.eqb problems ""); [|reflexivity]. simpl.
  destruct l; [|reflexivity]. simpl.
  change (_build_pod_spec
            {| config := cfg; is_leader := true; database := db;
               effects := [] |})
    with (_build_pod_spec
            {| config := cfg; is_leader := true; database := db;
               effects := es |}).
  destruct (_build_pod_spec _) as [spec|e]; [|reflexivity].
  change (_update_pod_env_config
            {| config := cfg; is_leader := true; database := db;
               effects := [] |} spec)
    with (_update_pod_env_config
            {| config := cfg; is_leader := true; database := db;
               effects := es |} spec).
  destruct (_update_pod_env_config _ spec) as [spec'|e]; [|reflexivity].
  simpl. unfold append_effects, emit. simpl.
  rewrite <- !app_assoc. reflexivity.
Qed.

Lemma last_status_snoc (es : list effect) (s : status) :
  last_status (es ++ [SetStatus s]) = Some s.
Proof.
  induction es as [|e es IH]; [reflexivity|].
  simpl. rewrite IH. reflexivity.
Qed.

Lemma last_spec_snoc_status (es : list effect) (s : status) :
  last_spec (es ++ [SetStatus s]) = last_spec es.
Proof.
  induction es as [|e es IH]; [reflexivity|].
  simpl. rewrite IH. reflexivity.
Qed.

(** X1: a second reconciliation pass on unchanged inputs, for whatever
    event, returns or raises as the first did and repeats the very calls
    the first made (same statuses, same specification); neither pass
    touches the store. *)
Theorem configure_pod_idempotent (ev ev' : event) (self : charm) :
  let first := configure_pod ev self in
  let second := configure_pod ev' (snd first) in
  fst second = fst first
  ∧ database (snd first) = database self
  ∧ database (snd second) = database self
  ∧ ∃ calls,
      effects (snd first) = (effects self ++ calls)%list ∧
      effects (snd second) = (effects (snd first) ++ calls)%list.
Proof.
  intros first second. unfold second, first.
  rewrite (configure_pod_reconcile ev self). simpl.
  rewrite (configure_pod_reconcile ev'). simpl.
  repeat split. eexists. split; reflexivity.
Qed.

(** X2: [configure_pod] raises in two situations only, both on a store
    with a non-empty host: [KeyError('image')] when [image] is not set, and
    [KeyError('port')] when [image] is truthy, the unit is the leader and
    [port] is not set.  A non-leader, or a charm blocked on an empty
    [image], never reads [port]. *)
Theorem configure_pod_raises_iff (ev : event) (self : charm) (e : exn) :
  fst (configure_pod ev self) = Raise e ↔
  truthy_opt (database self !! "host") = true ∧
  ((config self !! "image" = None ∧ e = KeyError "image") ∨
   (holds_truthy (config self) "image" = true ∧ is_leader self = true ∧
    config self !! "port" = None ∧ e = KeyError "port")).
Proof.
  rewrite configure_pod_unfold. unfold holds_truthy.
  destruct (truthy_opt (database self !! "host")); simpl;
    [|split; [discriminate | intros [Hh _]; discriminate Hh]].
  destruct (config self !! "image") as [image|] eqn:Hi.
  - rewrite (check_image_present self image Hi).
    destruct (truthy image); simpl;
      [|split; [discriminate
               | intros [_ [[Hn _]|[Ht _]]]; discriminate]].
    destruct (is_leader self); simpl;
      [|split; [discriminate
               | intros [_ [[Hn _]|[_ [Hl _]]]]; discriminate]].
    unfold _build_pod_spec, _update_pod_env_config. rewrite Hi.
    destruct (config self !! "port") as [port|]; simpl.
    + split; [discriminate
             | intros [_ [[Hn _]|[_ [_ [Hp _]]]]]; discriminate].
    + split.
      * intros [= <-]. split; [reflexivity|]. right. repeat split.
      * intros [_ [[Hn _]|[_ [_ [_ ->]]]]]; [discriminate | reflexivity].
  - rewrite (check_image_absent self Hi). simpl. split.
    + intros [= <-]. split; [reflexivity|]. left. split; reflexivity.
    + intros [_ [[_ ->]|[Ht _]]]; [reflexivity | discriminate].
Qed.

(** X3: when [configure_pod] returns, the status it leaves is Waiting,
    Blocked or Active; the maintenance status is never the final one. *)
Theorem configure_pod_settles_status (ev : event) (self : charm) :
  fst (configure_pod ev self) = Ok tt →
  ∃ s, last_status (effects (snd (configure_pod ev self))) = Some s ∧
       (s = WaitingStatus "Waiting for database relation" ∨
        (∃ problems, s = BlockedStatus problems ∧ problems ≠ "") ∨
        s = ActiveStatus).
Proof.
  rewrite configure_pod_unfold.
  destruct (truthy_opt (database self !! "host")); simpl;
    [|intros _; eexists; split; [apply last_status_snoc | left; reflexivity]].
  destruct (_check_for_config_problems self) as [problems|e];
    [|discriminate].
  destruct (String.eqb_spec problems "") as [->|Hne]; simpl;
    [|intros _; eexists; split;
      [apply last_status_snoc | right; left; eauto]].
  destruct (is_leader self); simpl;
    [|intros _; eexists; split;
      [apply last_status_snoc | right; right; reflexivity]].
  destruct (_build_pod_spec self) as [spec|e]; [|discriminate].
  destruct (_update_pod_env_config self spec) as [spec'|e]; [|discriminate].
  intros _. eexists. split; [apply last_status_snoc | right; right; reflexivity].
Qed.

(** The calls of a pass under a configuration that defines both settings. *)
Lemma configure_pod_calls
    (ev : event) (self : charm) (image port : value) :
  config self !! "image" = Some image →
  config self !! "port" = Some port →
  configure_pod ev self =
    (Ok tt,
     append_effects
       (if negb (truthy_opt (database self !! "host")) then
          [SetStatus (WaitingStatus "Waiting for database relation")]
        else if negb (truthy image) then
          [SetStatus (BlockedStatus "required setting(s) empty: image")]
        else if negb (is_leader self) then
          [SetStatus ActiveStatus]
        else
          [SetStatus (MaintenanceStatus "Building pod spec.");
           SetSpec
             {| version := 3;
                containers :=
                  [ {| name := app_name;
                       imageDetails := {| imagePath := image |};
                       ports := [ {| port_name := "http";
                                     containerPort := port;
                                     protocol := "TCP" |} ];
                       volumeConfig := [];
                       envConfig := buildEnv_spec (database self);
                       kubernetes :=
                         {| readinessProbe := the_readiness_probe |} |} ] |};
           SetStatus ActiveStatus])
       self).
Proof.
  intros Hi Hp. rewrite configure_pod_unfold.
  destruct (truthy_opt (database self !! "host")); [|reflexivity]. simpl.
  rewrite (check_image_present self image Hi).
  destruct (truthy image); [|reflexivity]. simpl.
  destruct (is_leader self); [|reflexivity]. simpl.
  unfold _build_pod_spec, _update_pod_env_config. rewrite Hi, Hp. simpl.
  rewrite env_of_database_spec.
  unfold append_effects, emit. simpl. rewrite <- !app_assoc. reflexivity.
Qed.

(** X4: for a configuration that defines [image] and [port],
    [configure_pod] returns normally and makes exactly these calls:
    the waiting status when the store has no host; else the blocked status
    naming [image] when [image] is empty; else the active status on a
    non-leader; else, on the leader, the maintenance status, [set_spec]
    with the built specification whose environment is the mapping for the
    stored engine, and the active status. *)
Theorem configure_pod_four_branches
    (ev : event) (self : charm) (image port : value) :
  config self !! "image" = Some image →
  config self !! "port" = Some port →
  configure_pod ev self =
    (Ok tt,
     append_effects
       (if negb (truthy_opt (database self !! "host")) then
          [SetStatus (WaitingStatus "Waiting for database relation")]
        else if negb (truthy image) then
          [SetStatus (BlockedStatus "required setting(s) empty: image")]
        else if negb (is_leader self) then
          [SetStatus ActiveStatus]
        else
          [SetStatus (MaintenanceStatus "Building pod spec.");
           SetSpec
             {| version := 3;
                containers :=
                  [ {| name := app_name;
                       imageDetails := {| imagePath := image |};
                       ports := [ {| port_name := "http";
                                     containerPort := port;
                                     protocol := "TCP" |} ];
                       volumeConfig := [];
                       envConfig := buildEnv_spec (database self);
                       kubernetes :=
                         {| readinessProbe := the_readiness_probe |} |} ] |};
           SetStatus ActiveStatus])
       self).
Proof. exact (configure_pod_calls ev self image port). Qed.

(** ** What a unit that is not the leader can do *)

(** X5: on a unit that is not the leader, whatever its store holds, no
    handler changes the store and no handler publishes a specification:
    a handler makes no call at all, or sets one status, which is not the
    maintenance status. *)
Theorem non_leader_never_publishes (ev : event) (self : charm) :
  is_leader self = false →
  database (snd (dispatch ev self)) = database self ∧
  (effects (snd (dispatch ev self)) = effects self ∨
   ∃ s, effects (snd (dispatch ev self)) = (effects self ++ [SetStatus s])%list ∧
        ∀ message, s ≠ MaintenanceStatus message).
Proof.
  intros Hl. destruct ev as [| | |rel|rel]; simpl.
  1-3: rewrite configure_pod_unfold, Hl;
       destruct (truthy_opt (database self !! "host")); simpl;
       [ destruct (_check_for_config_problems self) as [problems|e];
         [ destruct (String.eqb problems ""); simpl | ] | ];
       (split; [reflexivity|]);
       try (left; reflexivity);
       right; eexists; (split; [reflexivity | discriminate]).
  - rewrite on_database_changed_not_leader by exact Hl.
    split; [reflexivity | left; reflexivity].
  - enter_handler. split; [reflexivity | left; reflexivity].
Qed.

(** ** The store and the reconciliation together *)

Lemma set_database_same (self : charm) :
  set_database (database self) self = self.
Proof. destruct self. reflexivity. Qed.

Lemma dispatch_empty_store (ev : event) (self : charm) :
  is_relation_changed ev = false → database self = ∅ →
  dispatch ev self = (Ok tt, self) ∨
  dispatch ev self =
    (Ok tt, emit (SetStatus (WaitingStatus "Waiting for database relation")) self).
Proof.
  intros Hev Hdb. destruct ev as [| | |rel|rel]; simpl; try discriminate Hev.
  1-3: right; apply configure_pod_waiting; rewrite Hdb; reflexivity.
  left. unfold on_database_broken, bind, read, ret, exec.
  destruct (is_leader self); [|reflexivity]. simpl.
  rewrite <- Hdb, set_database_same. reflexivity.
Qed.

Lemma run_empty_store (ds : list delivery) (self : charm) :
  Forall (λ d, is_relation_changed (d_event d) = false) ds →
  database self = ∅ → Forall waiting_or_log (effects self) →
  database (run ds self) = ∅ ∧ Forall waiting_or_log (effects (run ds self)).
Proof.
  revert self. induction ds as [|d ds IH]; intros self Hds Hdb Heff;
    [split; assumption|].
  apply Forall_cons in Hds as [Hd Hds]. simpl.
  assert (Hstep : deliver self d = set_host (d_config d) (d_leader d) self ∨
                  deliver self d =
                    emit (SetStatus (WaitingStatus "Waiting for database relation"))
                      (set_host (d_config d) (d_leader d) self)).
  { unfold deliver.
    destruct (dispatch_empty_store (d_event d)
                (set_host (d_config d) (d_leader d) self) Hd Hdb) as [->| ->];
      [left | right]; reflexivity. }
  destruct Hstep as [-> | ->]; apply IH; try assumption.
  simpl. apply Forall_app. split; [exact Heff|].
  apply Forall_cons. split; [right; reflexivity | apply Forall_nil_2].
Qed.

(** X6: as long as no relation-changed event is delivered, whatever the
    leadership and the configuration at each delivery, the store stays
    empty, the charm only logs and sets the waiting status, and no
    specification is published.  In particular a leader that receives its
    configuration before any relation data publishes nothing. *)
Theorem no_relation_no_spec
    (ds : list delivery) (cfg : gmap string value) (leader : bool) :
  Forall (λ d, is_relation_changed (d_event d) = false) ds →
  database (run ds (new_charm cfg leader)) = ∅
  ∧ Forall (λ e, is_log e = true ∨
                 e = SetStatus (WaitingStatus "Waiting for database relation"))
      (effects (run ds (new_charm cfg leader)))
  ∧ last_spec (effects (run ds (new_charm cfg leader))) = None.
Proof.
  intros Hds.
  destruct (run_empty_store ds (new_charm cfg leader) Hds eq_refl)
    as [Hdb Heff].
  { apply Forall_cons. split; [left; reflexivity | apply Forall_nil_2]. }
  split; [exact Hdb|]. split; [exact Heff|].
  apply waiting_or_log_no_spec, Heff.
Qed.

(** X7: after the leader handled relation-broken, the next reconciliation
    finds the store empty: it sets the waiting status and returns, and the
    specification published before, if any, is still the last one the
    platform received (nothing withdraws or replaces it). *)
Theorem broken_then_reconcile_waits
    (rel : relation_event) (ev : event) (self : charm) :
  is_leader self = true →
  let broken := snd (on_database_broken rel self) in
  database broken = ∅
  ∧ configure_pod ev broken =
      (Ok tt,
       emit (SetStatus (WaitingStatus "Waiting for database relation")) broken)
  ∧ last_status (effects (snd (configure_pod ev broken))) =
      Some (WaitingStatus "Waiting for database relation")
  ∧ last_spec (effects (snd (configure_pod ev broken))) =
      last_spec (effects self).
Proof.
  intros Hl broken.
  assert (Hbroken : broken = set_database ∅ self).
  { unfold broken, on_database_broken, bind, read, ret, exec.
    rewrite Hl. reflexivity. }
  assert (Hrun : configure_pod ev broken =
                 (Ok tt,
                  emit (SetStatus (WaitingStatus "Waiting for database relation"))
                    broken)).
  { apply configure_pod_waiting. rewrite Hbroken. reflexivity. }
  split; [rewrite Hbroken; reflexivity|]. split; [exact Hrun|].
  rewrite Hrun, Hbroken. simpl.
  split; [apply last_status_snoc | apply last_spec_snoc_status].
Qed.

(** X8: relation data whose [host] is the empty string pass the check for
    missing fields (the value is not [None]) and are stored, but the
    reconciliation that follows treats the empty host as no host: it sets
    the waiting status and publishes nothing. *)
Theorem empty_host_stored_but_waits
    (ev : relation_event) (self : charm) (unit t : string) :
  is_leader self = true →
  ev_unit ev = Some unit →
  (∀ f, f ∈ REQUIRED_DATABASE_FIELDS → is_Some (ev_data ev unit !! f)) →
  ev_data ev unit !! "type" = Some t →
  t ∈ VALID_DATABASE_TYPES →
  ev_data ev unit !! "host" = Some "" →
  let stored := update (five_fields (ev_data ev unit)) (database self) in
  stored !! "host" = Some ""
  ∧ on_database_changed ev self =
      (Ok tt,
       emit (SetStatus (WaitingStatus "Waiting for database relation"))
         (set_database stored self)).
Proof.
  intros Hl Hunit Hall Ht Hvalid Hhost stored.
  assert (Hstored : stored !! "host" = Some "").
  { unfold stored, update. apply lookup_union_Some_l.
    rewrite lookup_five_fields. exact Hhost. }
  split; [exact Hstored|].
  rewrite (on_database_changed_complete ev self unit t Hl Hunit Hall Ht).
  rewrite (proj2 (in_list_elem_of _ _) Hvalid).
  apply configure_pod_waiting. simpl. fold stored. rewrite Hstored.
  reflexivity.
Qed.

Lemma configure_pod_is_leader (ev : event) (self : charm) :
  is_leader (snd (configure_pod ev self)) = is_leader self.
Proof. rewrite configure_pod_reconcile. reflexivity. Qed.

Lemma update_twice (new old : gmap string string) :
  update new (update new old) = update new old.
Proof.
  apply map_eq. intros k. unfold update. rewrite !lookup_union.
  destruct (new !! k), (old !! k); reflexivity.
Qed.

(** X9: handling the same relation-changed event a second time leaves the
    store as the first handling left it, whether the event is accepted or
    rejected. *)
Theorem on_database_changed_store_idempotent
    (ev : relation_event) (self : charm) :
  database
    (snd (on_database_changed ev (snd (on_database_changed ev self)))) =
  database (snd (on_database_changed ev self)).
Proof.
  destruct (is_leader self) eqn:Hl;
    [|rewrite (on_database_changed_not_leader ev self Hl); cbn [snd];
      rewrite (on_database_changed_not_leader ev self Hl); reflexivity].
  destruct (ev_unit ev) as [u|] eqn:Hu;
    [|rewrite (on_database_changed_no_unit ev self Hl Hu); cbn [snd];
      rewrite on_database_changed_no_unit by assumption; reflexivity].
  destruct (fields_complete_or_missing (ev_data ev u)) as [Hall|[f [Hf Hnone]]].
  - destruct (Hall "type") as [t Ht]; [apply in_list_elem_of; reflexivity|].
    rewrite (on_database_changed_complete ev self u t Hl Hu Hall Ht).
    destruct (in_list t VALID_DATABASE_TYPES) eqn:Hvalid.
    + set (first := snd (configure_pod (DatabaseRelationChanged ev)
                           (set_database
                              (update (five_fields (ev_data ev u))
                                 (database self)) self))).
      assert (Hl1 : is_leader first = true)
        by (unfold first; rewrite configure_pod_is_leader; exact Hl).
      assert (Hdb1 : database first =
                     update (five_fields (ev_data ev u)) (database self))
        by (unfold first; rewrite configure_pod_database; reflexivity).
      rewrite (on_database_changed_complete ev first u t Hl1 Hu Hall Ht).
      rewrite Hvalid, configure_pod_database. simpl.
      rewrite Hdb1. apply update_twice.
    + cbn [snd].
      rewrite (on_database_changed_complete ev
                 (emit (Log ERROR
                          "Nextcloud can only accept databases of the followingtypes: %s"
                          VALID_DATABASE_TYPES) self) u t Hl Hu Hall Ht).
      rewrite Hvalid. reflexivity.
  - destruct (on_database_changed_missing ev self u f Hl Hu Hf Hnone)
      as [missing [-> _]].
    cbn [snd].
    destruct (on_database_changed_missing ev
                (emit (Log ERROR
                         "Missing required data fields for related databaserelation: %s"
                         missing) self) u f Hl Hu Hf Hnone)
      as [missing' [-> _]].
    reflexivity.
Qed.

(** ** What is published *)

Lemma store_inv_full (db : gmap string string) :
  store_inv db → truthy_opt (db !! "host") = true →
  (∃ t, db !! "type" = Some t ∧ t ∈ VALID_DATABASE_TYPES) ∧
  is_Some (db !! "name") ∧ is_Some (db !! "user") ∧
  is_Some (db !! "password") ∧ is_Some (db !! "host").
Proof.
  intros [->|[Hkeys Ht]] Hh.
  - rewrite lookup_empty in Hh. discriminate Hh.
  - split; [exact Ht|].
    repeat split; apply Hkeys, in_list_elem_of; reflexivity.
Qed.

Lemma buildEnv_well_formed (db : gmap string string) :
  (∃ t, db !! "type" = Some t ∧ t ∈ VALID_DATABASE_TYPES) →
  is_Some (db !! "name") → is_Some (db !! "user") →
  is_Some (db !! "password") → is_Some (db !! "host") →
  (∀ k v, buildEnv_spec db !! k = Some v → is_Some v) ∧
  (dom (buildEnv_spec db) =
     list_to_set ["MYSQL_DATABASE"; "MYSQL_USER"; "MYSQL_PASSWORD";
                  "MYSQL_HOST"] ∨
   dom (buildEnv_spec db) =
     list_to_set ["POSTGRES_DB"; "POSTGRES_USER"; "POSTGRES_PASSWORD";
                  "POSTGRES_HOST"]).
Proof.
  intros [t [Ht Hvalid]] Hn Hu Hp Hh.
  rewrite <- env_of_database_spec. unfold env_of_database. rewrite Ht.
  apply list_elem_of_In in Hvalid. unfold VALID_DATABASE_TYPES in Hvalid.
  simpl in Hvalid. destruct Hvalid as [<-|[<-|[]]].
  - replace (lower (default "" (Some "mysql"))) with "mysql" by reflexivity.
    cbn [String.eqb Ascii.eqb Bool.eqb orb]. unfold mysql_env. split.
    + intros k v Hkv.
      repeat (rewrite lookup_insert in Hkv;
              destruct (decide (_ = k)) as [_|_];
              [injection Hkv as <-; assumption|]).
      rewrite lookup_empty in Hkv. discriminate Hkv.
    + left. rewrite !dom_insert_L, dom_empty_L. simpl. set_solver.
  - replace (lower (default "" (Some "postgres"))) with "postgres"
      by reflexivity.
    cbn [String.eqb Ascii.eqb Bool.eqb orb]. unfold postgres_env. split.
    + intros k v Hkv.
      repeat (rewrite lookup_insert in Hkv;
              destruct (decide (_ = k)) as [_|_];
              [injection Hkv as <-; assumption|]).
      rewrite lookup_empty in Hkv. discriminate Hkv.
    + right. rewrite !dom_insert_L, dom_empty_L. simpl. set_solver.
Qed.

Lemma reconcile_publishes_well_formed
    (cfg : gmap string value) (leader : bool) (db : gmap string string) :
  store_inv db → Forall publishes_well_formed (snd (reconcile cfg leader db)).
Proof.
  intros Hinv. unfold reconcile. rewrite configure_pod_unfold.
  set (self := {| config := cfg; is_leader := leader; database := db;
                  effects := [] |}).
  assert (Hstatus : ∀ s, Forall publishes_well_formed [SetStatus s]).
  { intros s. apply Forall_cons. split; [|apply Forall_nil_2].
    intros p Hp. discriminate Hp. }
  change (database self) with db.
  destruct (truthy_opt (db !! "host")) eqn:Hh; [|apply Hstatus]. simpl.
  destruct (_check_for_config_problems self) as [problems|e];
    [|apply Forall_nil_2].
  destruct (String.eqb problems ""); [|apply Hstatus]. simpl.
  destruct leader; [|apply Hstatus]. simpl.
  unfold _build_pod_spec, _update_pod_env_config. simpl.
  destruct (cfg !! "image") as [image|]; [|apply Hstatus].
  destruct (cfg !! "port") as [port|]; [|apply Hstatus].
  simpl. rewrite env_of_database_spec.
  destruct (store_inv_full db Hinv Hh) as [Ht [Hn [Hu [Hp Hhost]]]].
  destruct (buildEnv_well_formed db Ht Hn Hu Hp Hhost) as [Hvalues Hdom].
  repeat (apply Forall_cons; split); try apply Forall_nil_2;
    intros p Hp'; try discriminate Hp'.
  injection Hp' as <-. split; [reflexivity|].
  eexists. split; [reflexivity|]. split; [reflexivity|].
  split; [exact Hvalues | exact Hdom].
Qed.

Lemma dispatch_publishes_well_formed (ev : event) (self : charm) :
  store_inv (database self) →
  Forall publishes_well_formed (effects self) →
  Forall publishes_well_formed (effects (snd (dispatch ev self))).
Proof.
  intros Hinv Heff.
  assert (Hlog : ∀ lvl format args,
             Forall publishes_well_formed
               (effects (emit (Log lvl format args) self))).
  { intros lvl format args. simpl. apply Forall_app. split; [exact Heff|].
    apply Forall_cons. split; [|apply Forall_nil_2].
    intros p Hp. discriminate Hp. }
  assert (Hpass : ∀ ev' db,
             store_inv db →
             Forall publishes_well_formed
               (effects (snd (configure_pod ev' (set_database db self))))).
  { intros ev' db Hdb. rewrite configure_pod_reconcile. simpl.
    apply Forall_app. split; [exact Heff|].
    apply reconcile_publishes_well_formed, Hdb. }
  destruct ev as [| | |rel|rel]; simpl.
  1-3: rewrite <- (set_database_same self); apply Hpass, Hinv.
  - destruct (is_leader self) eqn:Hl;
      [|rewrite on_database_changed_not_leader by exact Hl; exact Heff].
    destruct (ev_unit rel) as [u|] eqn:Hu;
      [|rewrite on_database_changed_no_unit by assumption; apply Hlog].
    destruct (fields_complete_or_missing (ev_data rel u)) as [Hall|[f [Hf Hnone]]].
    + destruct (Hall "type") as [t Ht];
        [apply in_list_elem_of; reflexivity|].
      rewrite (on_database_changed_complete rel self u t Hl Hu Hall Ht).
      destruct (in_list t VALID_DATABASE_TYPES) eqn:Hvalid; [|apply Hlog].
      apply Hpass. rewrite (update_replaces _ _ Hall Hinv).
      apply (five_fields_inv _ t Hall Ht), in_list_elem_of, Hvalid.
    + destruct (on_database_changed_missing rel self u f Hl Hu Hf Hnone)
        as [missing [-> _]].
      apply Hlog.
  - unfold on_database_broken, bind, read, ret, exec.
    destruct (is_leader self); exact Heff.
Qed.

Lemma run_publishes_well_formed (ds : list delivery) (self : charm) :
  store_inv (database self) →
  Forall publishes_well_formed (effects self) →
  Forall publishes_well_formed (effects (run ds self)).
Proof.
  revert self. induction ds as [|d ds IH]; intros self Hinv Heff;
    [exact Heff|].
  simpl. apply IH; unfold deliver.
  - apply dispatch_store_inv. exact Hinv.
  - apply dispatch_publishes_well_formed; assumption.
Qed.

(** X10: every specification the charm ever publishes, in any sequence of
    deliveries from the initial state, has version 3 and exactly one
    container, named after the application, whose environment binds the
    four variables of one engine ([MYSQL_*] or [POSTGRES_*]) and binds each
    of them to a string, never to [None]: the checks of
    [on_database_changed] keep the silent empty environment of
    [_update_pod_env_config] out of what is published. *)
Theorem published_specs_well_formed
    (ds : list delivery) (cfg : gmap string value) (leader : bool)
    (p : pod_spec) :
  SetSpec p ∈ effects (run ds (new_charm cfg leader)) →
  version p = 3 ∧
  ∃ c, containers p = [c] ∧ name c = app_name ∧
       (∀ k v, envConfig c !! k = Some v → is_Some v) ∧
       (dom (envConfig c) =
          list_to_set ["MYSQL_DATABASE"; "MYSQL_USER"; "MYSQL_PASSWORD";
                       "MYSQL_HOST"] ∨
        dom (envConfig c) =
          list_to_set ["POSTGRES_DB"; "POSTGRES_USER"; "POSTGRES_PASSWORD";
                       "POSTGRES_HOST"]).
Proof.
  intros Hin.
  assert (Hall : Forall publishes_well_formed
                   (effects (run ds (new_charm cfg leader)))).
  { apply run_publishes_well_formed; [left; reflexivity|].
    apply Forall_cons. split; [|apply Forall_nil_2].
    intros q Hq. discriminate Hq. }
  rewrite Forall_forall in Hall. exact (Hall (SetSpec p) Hin p eq_refl).
Qed.


(** ** From the relation data to the published environment *)

Lemma buildEnv_union (new old : gmap string string) :
  (∀ f, f ∈ REQUIRED_DATABASE_FIELDS → is_Some (new !! f)) →
  buildEnv_spec (new ∪ old) = buildEnv_spec new.
Proof.
  intros Hall.
  assert (Hget : ∀ f, f ∈ REQUIRED_DATABASE_FIELDS →
                      (new ∪ old) !! f = new !! f)
    by (intros f Hf; apply lookup_union_l', Hall, Hf).
  unfold buildEnv_spec.
  rewrite !Hget by (apply in_list_elem_of; reflexivity).
  reflexivity.
Qed.

Lemma last_spec_published (es : list effect) (e : effect) (p : pod_spec)
    (s : status) :
  last_spec (es ++ [e; SetSpec p; SetStatus s]) = Some p.
Proof.
  induction es as [|e' es IH]; [destruct e; reflexivity|].
  simpl. rewrite IH. reflexivity.
Qed.

(** X12: on the leader, under a configuration with a non-empty [image] and
    a [port], an accepted relation-changed event with a non-empty host ends
    with the active status and with a published specification whose
    environment is built from the values of that event alone, whatever the
    store held before. *)
Theorem accepted_data_reach_env
    (ev : relation_event) (self : charm) (unit t h n u p : string)
    (image port : value) :
  is_leader self = true →
  ev_unit ev = Some unit →
  ev_data ev unit !! "type" = Some t →
  ev_data ev unit !! "host" = Some h →
  ev_data ev unit !! "name" = Some n →
  ev_data ev unit !! "user" = Some u →
  ev_data ev unit !! "password" = Some p →
  t ∈ VALID_DATABASE_TYPES →
  h ≠ "" →
  config self !! "image" = Some image →
  truthy image = true →
  config self !! "port" = Some port →
  let new : gmap string string :=
    <["type" := t]> (<["host" := h]> (<["name" := n]>
      (<["user" := u]> (<["password" := p]> ∅)))) in
  fst (on_database_changed ev self) = Ok tt
  ∧ last_status (effects (snd (on_database_changed ev self))) =
      Some ActiveStatus
  ∧ last_spec (effects (snd (on_database_changed ev self))) =
      Some {| version := 3;
              containers :=
                [ {| name := app_name;
                     imageDetails := {| imagePath := image |};
                     ports := [ {| port_name := "http";
                                   containerPort := port;
                                   protocol := "TCP" |} ];
                     volumeConfig := [];
                     envConfig := buildEnv_spec new;
                     kubernetes :=
                       {| readinessProbe := the_readiness_probe |} |} ] |}.
Proof.
  intros Hl Hunit Ht Hh Hn Hu Hp Hvalid Hne Hi Himage Hport new.
  assert (Hall : ∀ f, f ∈ REQUIRED_DATABASE_FIELDS →
                      is_Some (ev_data ev unit !! f)).
  { intros f Hf. apply list_elem_of_In in Hf.
    unfold REQUIRED_DATABASE_FIELDS in Hf. simpl in Hf.
    destruct Hf as [<-|[<-|[<-|[<-|[<-|[]]]]]]; eauto. }
  assert (Hnew : five_fields (ev_data ev unit) = new)
    by (apply five_fields_complete; assumption).
  assert (Hnew_all : ∀ f, f ∈ REQUIRED_DATABASE_FIELDS → is_Some (new !! f)).
  { intros f Hf. rewrite <- Hnew, lookup_five_fields.
    rewrite (proj2 (in_list_elem_of _ _) Hf). apply Hall, Hf. }
  rewrite (on_database_changed_complete ev self unit t Hl Hunit Hall Ht).
  rewrite (proj2 (in_list_elem_of _ _) Hvalid). unfold update. rewrite Hnew.
  rewrite (configure_pod_calls (DatabaseRelationChanged ev)
             (set_database (new ∪ database self) self) image port Hi Hport).
  cbn [database set_database is_leader].
  rewrite (lookup_union_l' new (database self) "host")
    by (apply Hnew_all, in_list_elem_of; reflexivity).
  change (new !! "host") with (Some h).
  assert (Hhost : truthy_opt (Some h) = true).
  { simpl. destruct (String.eqb_spec h ""); [contradiction | reflexivity]. }
  rewrite Hhost, Himage, Hl, (buildEnv_union new (database self) Hnew_all).
  cbn [negb fst snd effects append_effects].
  split; [reflexivity|]. split.
  - change [SetStatus (MaintenanceStatus "Building pod spec.");
            SetSpec _; SetStatus ActiveStatus]
      with ([SetStatus (MaintenanceStatus "Building pod spec.");
             SetSpec
               {| version := 3;
                  containers :=
                    [ {| name := app_name;
                         imageDetails := {| imagePath := image |};
                         ports := [ {| port_name := "http";
                                       containerPort := port;
                                       protocol := "TCP" |} ];
                         volumeConfig := [];
                         envConfig := buildEnv_spec new;
                         kubernetes :=
                           {| readinessProbe := the_readiness_probe |} |} ] |}]
            ++ [SetStatus ActiveStatus])%list.
    rewrite app_assoc. apply last_status_snoc.
  - apply last_spec_published.
Qed.

End Charm.

(** ** Instances on the data of the tests *)

Lemma build_pod_spec_from_config_witness :
  ∃ spec,
    _build_pod_spec "nextcloud" (new_charm BASE_CONFIG true) = Ok spec ∧
    _build_pod_spec "nextcloud"
      (set_database test_relation_data (new_charm BASE_CONFIG false))
      = Ok spec ∧
    (imagePath ∘ imageDetails <$> containers spec)
      = [VStr "nextcloud:testing"] ∧
    (fmap containerPort ∘ ports <$> containers spec) = [[VInt 3000]].
Proof.
  destruct (build_pod_spec_from_config "nextcloud"
              (new_charm BASE_CONFIG true)
              (set_database test_relation_data
                 (new_charm BASE_CONFIG false))
              (VStr "nextcloud:testing") (VInt 3000))
    as [Hself Hother]; try reflexivity.
  eexists. split; [exact Hself|]. split; [rewrite Hother; exact Hself|].
  split; reflexivity.
Defined.

Lemma on_database_changed_rejects_witness :
  database
    (snd (on_database_changed "nextcloud"
            (RelationEvent (Some "mysql/0")
               (λ _, <["type" := "sqlite"]> test_relation_data))
            (set_database test_relation_data
               (new_charm BASE_CONFIG true))))
  = test_relation_data.
Proof.
  apply (on_database_changed_rejects "nextcloud"
           (RelationEvent (Some "mysql/0")
              (λ _, <["type" := "sqlite"]> test_relation_data))
           (set_database test_relation_data
              (new_charm BASE_CONFIG true))).
  right. right. right. exists "mysql/0", "sqlite".
  split; [reflexivity|]. split; [reflexivity|].
  intros Hin. apply in_list_elem_of in Hin. discriminate Hin.
Defined.

Lemma on_database_changed_merges_witness :
  database
    (snd (on_database_changed "nextcloud" test_event (new_charm BASE_CONFIG true)))
  = test_relation_data.
Proof.
  assert (Hvalid : "mysql" ∈ VALID_DATABASE_TYPES)
    by (apply in_list_elem_of; reflexivity).
  destruct (on_database_changed_merges "nextcloud" test_event
              (new_charm BASE_CONFIG true)
              "mysql/0" "mysql" "0.1.2.3:3306" "my-test-db" "test-user"
              "super!secret!password"
              eq_refl eq_refl eq_refl eq_refl eq_refl eq_refl eq_refl Hvalid)
    as [_ [Hstore [_ [_ Hexact]]]].
  rewrite Hstore. apply (Hexact [] BASE_CONFIG true). reflexivity.
Defined.

Lemma never_leader_waits_witness :
  last_status
    (effects
       (run "nextcloud" [ {| d_config := BASE_CONFIG; d_leader := false;
                 d_event := DatabaseRelationChanged test_event |};
              {| d_config := BASE_CONFIG; d_leader := false;
                 d_event := ConfigChanged |} ]
          (new_charm BASE_CONFIG false)))
  = Some (WaitingStatus "Waiting for database relation")
  ∧ database
      (run "nextcloud" [ {| d_config := BASE_CONFIG; d_leader := false;
                d_event := DatabaseRelationChanged test_event |};
             {| d_config := BASE_CONFIG; d_leader := false;
                d_event := ConfigChanged |} ]
         (new_charm BASE_CONFIG false))
    = ∅.
Proof.
  split; [reflexivity|].
  apply (never_leader_waits "nextcloud"
           [ {| d_config := BASE_CONFIG; d_leader := false;
                d_event := DatabaseRelationChanged test_event |};
             {| d_config := BASE_CONFIG; d_leader := false;
                d_event := ConfigChanged |} ]
           BASE_CONFIG).
  repeat constructor.
Defined.

(** ** Settings that are not set *)

(** C2 (defect of the code): on the leader, with a stored database host
    and a configuration in which [image] is set and [port] is not, the
    chain reaches its last branch and sets the maintenance status, and then
    the lookup [config["port"]] in [_build_pod_spec] raises: no
    specification is published and the status is never set to Active. *)
Theorem configure_pod_stops_before_publishing :
  let outcome := configure_pod "nextcloud" ConfigChanged leader_without_port in
  fst outcome = Raise (KeyError "port")
  ∧ effects (snd outcome) =
      (effects leader_without_port ++
       [SetStatus (MaintenanceStatus "Building pod spec.")])%list
  ∧ last_spec (effects (snd outcome)) = None
  ∧ last_status (effects (snd outcome)) =
      Some (MaintenanceStatus "Building pod spec.").
Proof. repeat split; reflexivity. Qed.

(** C3 (defect of the code): the handlers raise [KeyError] when a setting
    they index is not set.  On the leader with a stored host, [configure_pod]
    raises on [port] when only [image] is set, and on [image] when the
    configuration is empty (where [_missing_charm_settings], documented to
    return the settings that are not set, raises too); [on_database_changed]
    raises in the same way through the reconciliation it triggers. *)
Theorem handlers_raise_on_unset_setting :
  fst (configure_pod "nextcloud" Start leader_without_port)
    = Raise (KeyError "port")
  ∧ fst (on_database_changed "nextcloud" test_event
           (new_charm config_without_port true))
    = Raise (KeyError "port")
  ∧ fst (configure_pod "nextcloud" Start
           (set_database test_relation_data (new_charm ∅ true)))
    = Raise (KeyError "image")
  ∧ _missing_charm_settings (new_charm ∅ true) = Raise (KeyError "image").
Proof. repeat split; reflexivity. Qed.

(** ** Instances of the further properties *)

Lemma configure_pod_settles_status_witness :
  ∃ s,
    last_status
      (effects (snd (configure_pod "nextcloud" ConfigChanged leader_with_database)))
      = Some s ∧
    (s = WaitingStatus "Waiting for database relation" ∨
     (∃ problems, s = BlockedStatus problems ∧ problems ≠ "") ∨
     s = ActiveStatus).
Proof.
  apply (configure_pod_settles_status "nextcloud" ConfigChanged
           leader_with_database).
  reflexivity.
Defined.

Lemma configure_pod_four_branches_witness :
  fst (configure_pod "nextcloud" ConfigChanged leader_with_database) = Ok tt.
Proof.
  rewrite (configure_pod_four_branches "nextcloud" ConfigChanged
             leader_with_database (VStr "nextcloud:testing") (VInt 3000)
             eq_refl eq_refl).
  reflexivity.
Defined.

Lemma non_leader_never_publishes_witness :
  database (snd (dispatch "nextcloud" ConfigChanged follower_with_database))
  = test_relation_data.
Proof.
  apply (non_leader_never_publishes "nextcloud" ConfigChanged
           follower_with_database).
  reflexivity.
Defined.

Lemma no_relation_no_spec_witness :
  last_spec
    (effects
       (run "nextcloud"
          [ {| d_config := BASE_CONFIG; d_leader := true;
               d_event := ConfigChanged |} ]
          (new_charm ∅ true)))
  = None.
Proof.
  apply (no_relation_no_spec "nextcloud"
           [ {| d_config := BASE_CONFIG; d_leader := true;
                d_event := ConfigChanged |} ]
           ∅ true).
  repeat constructor.
Defined.

Lemma broken_then_reconcile_waits_witness :
  last_spec
    (effects
       (snd (configure_pod "nextcloud" ConfigChanged
               (snd (on_database_broken test_event
                       (snd (configure_pod "nextcloud" Start
                               leader_with_database)))))))
  = last_spec
      (effects (snd (configure_pod "nextcloud" Start leader_with_database))).
Proof.
  apply (broken_then_reconcile_waits "nextcloud" test_event ConfigChanged
           (snd (configure_pod "nextcloud" Start leader_with_database))).
  reflexivity.
Defined.

Lemma empty_host_stored_but_waits_witness :
  on_database_changed "nextcloud"
    (RelationEvent (Some "mysql/0") (λ _, data_with_empty_host))
    (new_charm BASE_CONFIG true)
  = (Ok tt,
     emit (SetStatus (WaitingStatus "Waiting for database relation"))
       (set_database
          (update (five_fields data_with_empty_host) ∅)
          (new_charm BASE_CONFIG true))).
Proof.
  apply (empty_host_stored_but_waits "nextcloud"
           (RelationEvent (Some "mysql/0") (λ _, data_with_empty_host))
           (new_charm BASE_CONFIG true) "mysql/0" "mysql").
  - reflexivity.
  - reflexivity.
  - intros f Hf. apply list_elem_of_In in Hf.
    unfold REQUIRED_DATABASE_FIELDS in Hf. simpl in Hf.
    destruct Hf as [<-|[<-|[<-|[<-|[<-|[]]]]]]; eexists; reflexivity.
  - reflexivity.
  - apply in_list_elem_of. reflexivity.
  - reflexivity.
Defined.

Lemma published_specs_well_formed_witness :
  ∃ p,
    SetSpec p ∈
      effects
        (run "nextcloud"
           [ {| d_config := BASE_CONFIG; d_leader := true;
                d_event := DatabaseRelationChanged test_event |} ]
           (new_charm BASE_CONFIG true)) ∧
    version p = 3.
Proof.
  assert (Hin : ∃ p,
             SetSpec p ∈
               effects
                 (run "nextcloud"
                    [ {| d_config := BASE_CONFIG; d_leader := true;
                         d_event := DatabaseRelationChanged test_event |} ]
                    (new_charm BASE_CONFIG true))).
  { eexists. apply list_elem_of_lookup. exists 2%nat. reflexivity. }
  destruct Hin as [p Hin]. exists p. split; [exact Hin|].
  apply (published_specs_well_formed "nextcloud"
           [ {| d_config := BASE_CONFIG; d_leader := true;
                d_event := DatabaseRelationChanged test_event |} ]
           BASE_CONFIG true p Hin).
Defined.


Lemma accepted_data_reach_env_witness :
  last_status
    (effects
       (snd (on_database_changed "nextcloud" test_event
               (new_charm BASE_CONFIG true))))
  = Some ActiveStatus.
Proof.
  assert (Hvalid : "mysql" ∈ VALID_DATABASE_TYPES)
    by (apply in_list_elem_of; reflexivity).
  assert (Hhost : "0.1.2.3:3306" ≠ "") by discriminate.
  apply (accepted_data_reach_env "nextcloud" test_event
           (new_charm BASE_CONFIG true)
           "mysql/0" "mysql" "0.1.2.3:3306" "my-test-db" "test-user"
           "super!secret!password" (VStr "nextcloud:testing") (VInt 3000)
           eq_refl eq_refl eq_refl eq_refl eq_refl eq_refl eq_refl Hvalid Hhost
           eq_refl eq_refl eq_refl).
Defined.

Lemma handlers_return_when_settings_defined_witness :
  fst (dispatch "nextcloud" (DatabaseRelationChanged test_event)
         (new_charm BASE_CONFIG true))
  = Ok tt.
Proof.
  apply (handlers_return_when_settings_defined "nextcloud"
           (DatabaseRelationChanged test_event) (new_charm BASE_CONFIG true)
           (VStr "nextcloud:testing") (VInt 3000));
    reflexivity.
Defined.

Lemma update_pod_env_config_by_type_witness :
  (∃ c',
     _update_pod_env_config
       (set_database database_mixed_case (new_charm BASE_CONFIG true))
       unpatched_test_spec
       = Ok {| version := 3; containers := [c'] |}
     ∧ envConfig c' !! "MYSQL_DATABASE" = Some (Some "my-test-db")
     ∧ envConfig c' !! "MYSQL_USER" = Some (Some "test-user")
     ∧ envConfig c' !! "MYSQL_PASSWORD" = Some (Some "super!secret!password")
     ∧ envConfig c' !! "MYSQL_HOST" = Some (Some "0.1.2.3:3306")
     ∧ size (envConfig c') = 4%nat)
  ∧ (∃ c',
       _update_pod_env_config
         (set_database database_unknown_type (new_charm BASE_CONFIG true))
         {| version := 3;
            containers :=
              [ {| name := "nextcloud";
                   imageDetails := {| imagePath := VStr "nextcloud:testing" |};
                   ports := [];
                   volumeConfig := [];
                   envConfig := <["STALE" := Some "value"]> ∅;
                   kubernetes :=
                     {| readinessProbe := the_readiness_probe |} |} ] |}
         = Ok {| version := 3; containers := [c'] |}
       ∧ envConfig c' = ∅).
Proof.
  split.
  - destruct (update_pod_env_config_by_type
                (set_database database_mixed_case (new_charm BASE_CONFIG true))
                3
                {| name := "nextcloud";
                   imageDetails := {| imagePath := VStr "nextcloud:testing" |};
                   ports := [ {| port_name := "http";
                                 containerPort := VInt 3000;
                                 protocol := "TCP" |} ];
                   volumeConfig := [];
                   envConfig := ∅;
                   kubernetes :=
                     {| readinessProbe := the_readiness_probe |} |}
                [])
      as [[c' [Hrun [Henv _]]] _].
    exists c'. split; [exact Hrun|]. rewrite Henv. repeat split.
  - destruct (update_pod_env_config_by_type
                (set_database database_unknown_type
                   (new_charm BASE_CONFIG true))
                3
                {| name := "nextcloud";
                   imageDetails := {| imagePath := VStr "nextcloud:testing" |};
                   ports := [];
                   volumeConfig := [];
                   envConfig := <["STALE" := Some "value"]> ∅;
                   kubernetes :=
                     {| readinessProbe := the_readiness_probe |} |}
                [])
      as [[c' [Hrun [Henv _]]] _].
    exists c'. split; [exact Hrun|]. rewrite Henv. reflexivity.
Defined.
